(** * growatt_log: the Growatt API client of [growatt.py]

    A shallow embedding of the password hasher [hash_password] and of the
    [GrowattApi] client, with the properties of the repository's
    specification stated and proved over it.

    Python values are modelled as follows.
    - [str] is a list of Unicode code points ([pystr]); [bytes] is a list
      of [Byte.byte].
    - the value tree built by [json.loads] is the inductive [json]; a
      Python [dict] with string keys is a [gmap pystr json].
    - an exception is a constructor of [exn]; a computation that may raise
      returns a [result].
    - the HTTP session, the [warnings] module and the clock are a state
      [World] threaded through every method of the client. *)

From Stdlib Require Import ZArith NArith String Ascii List Lia.
From Stdlib.Strings Require Import Byte.
From Stdlib Require Import Floats.SpecFloat.
From stdpp Require Import gmap strings list fin_maps.

#[local] Set Warnings "-register-all".
#[local] Open Scope N_scope.

(* ===================================================================== *)
(** * Python strings, bytes and exceptions *)
(* ===================================================================== *)

(** A Python [str]: the sequence of its code points. *)
Abbreviation pystr := (list N).

(** Literals: the code points of an ASCII literal of the source. *)
Definition py (s : string) : pystr := map N_of_ascii (list_ascii_of_string s).
Coercion py : string >-> list.

(** The exceptions the embedded code can raise. *)
Inductive exn :=
| UnicodeEncodeError   (* str.encode on a lone surrogate *)
| UnicodeDecodeError   (* bytes.decode on ill-formed UTF-8 *)
| JSONDecodeError      (* json.loads on a text that is not JSON *)
| KeyError (k : pystr) (* d[k] on a dict without the key k *)
| TypeError            (* v[k] on a value that is not a dict *)
| IndexError           (* s[i] out of range *)
| AssertionError
| RequestException.    (* any failure raised by the HTTP transport *)

Inductive result (A : Type) :=
| Ok (a : A)
| Raise (e : exn).
Arguments Ok {A} a.
Arguments Raise {A} e.

Definition rbind {A B} (r : result A) (k : A -> result B) : result B :=
  match r with Ok a => k a | Raise e => Raise e end.

Definition is_ok {A} (r : result A) : bool :=
  match r with Ok _ => true | Raise _ => false end.

(* ===================================================================== *)
(** * [str.encode('utf-8')] *)
(* ===================================================================== *)

Module Utf8.

Definition byte_of_N (n : N) : byte :=
  match Byte.of_N (n mod 256) with Some b => b | None => Byte.x00 end.

Definition is_surrogate (c : N) : bool := (0xD800 <=? c) && (c <=? 0xDFFF).

(** The code points that have a UTF-8 encoding: the Unicode scalar values. *)
Definition is_scalar (c : N) : bool := negb (is_surrogate c) && (c <=? 0x10FFFF).

Definition cont (c : N) (shift : N) : byte :=
  byte_of_N (N.lor 0x80 (N.land (N.shiftr c shift) 0x3F)).

(** One code point; the strict error handler refuses surrogates. *)
Definition encode_char (c : N) : result (list byte) :=
  if c <? 0x80 then Ok [byte_of_N c]
  else if c <? 0x800 then
    Ok [byte_of_N (N.lor 0xC0 (N.shiftr c 6)); cont c 0]
  else if c <? 0x10000 then
    if is_surrogate c then Raise UnicodeEncodeError
    else Ok [byte_of_N (N.lor 0xE0 (N.shiftr c 12)); cont c 6; cont c 0]
  else if c <=? 0x10FFFF then
    Ok [byte_of_N (N.lor 0xF0 (N.shiftr c 18)); cont c 12; cont c 6; cont c 0]
  else Raise UnicodeEncodeError.

Fixpoint encode (s : pystr) : result (list byte) :=
  match s with
  | [] => Ok []
  | c :: s' =>
      rbind (encode_char c) (fun bs =>
      rbind (encode s') (fun rest => Ok (bs ++ rest)))
  end.

Definition encodable (s : pystr) : Prop := Forall (fun c => is_scalar c = true) s.

End Utf8.

(* ===================================================================== *)
(** * [hashlib.md5(...).hexdigest()] (RFC 1321) *)
(* ===================================================================== *)

Module MD5.

Definition mask32 : N := 0xFFFFFFFF.
Definition add32 (a b : N) : N := (a + b) mod 2 ^ 32.
Definition not32 (a : N) : N := N.lxor (a mod 2 ^ 32) mask32.
Definition rotl32 (x c : N) : N :=
  N.lor (N.shiftl x c mod 2 ^ 32) (N.shiftr (x mod 2 ^ 32) (32 - c)).

Definition F (b c d : N) : N := N.lor (N.land b c) (N.land (not32 b) d).
Definition G (b c d : N) : N := N.lor (N.land b d) (N.land c (not32 d)).
Definition H (b c d : N) : N := N.lxor b (N.lxor c d).
Definition I (b c d : N) : N := N.lxor c (N.lor b (not32 d)).

(** Per-round left-rotation amounts. *)
Definition S : list N :=
  [7; 12; 17; 22; 7; 12; 17; 22; 7; 12; 17; 22; 7; 12; 17; 22;
   5; 9; 14; 20; 5; 9; 14; 20; 5; 9; 14; 20; 5; 9; 14; 20;
   4; 11; 16; 23; 4; 11; 16; 23; 4; 11; 16; 23; 4; 11; 16; 23;
   6; 10; 15; 21; 6; 10; 15; 21; 6; 10; 15; 21; 6; 10; 15; 21].

(** [K !! i] is floor(2^32 * |sin (i + 1)|). *)
Definition K : list N :=
  [3614090360; 3905402710; 606105819; 3250441966;
   4118548399; 1200080426; 2821735955; 4249261313;
   1770035416; 2336552879; 4294925233; 2304563134;
   1804603682; 4254626195; 2792965006; 1236535329;
   4129170786; 3225465664; 643717713; 3921069994;
   3593408605; 38016083; 3634488961; 3889429448;
   568446438; 3275163606; 4107603335; 1163531501;
   2850285829; 4243563512; 1735328473; 2368359562;
   4294588738; 2272392833; 1839030562; 4259657740;
   2763975236; 1272893353; 4139469664; 3200236656;
   681279174; 3936430074; 3572445317; 76029189;
   3654602809; 3873151461; 530742520; 3299628645;
   4096336452; 1126891415; 2878612391; 4237533241;
   1700485571; 2399980690; 4293915773; 2240044497;
   1873313359; 4264355552; 2734768916; 1309151649;
   4149444226; 3174756917; 718787259; 3951481745].

(** [n] bytes of [x], least significant first. *)
Fixpoint le_bytes (n : nat) (x : N) : list N :=
  match n with
  | O => []
  | Datatypes.S n' => (x mod 256) :: le_bytes n' (x / 256)
  end.

Fixpoint le_word (bs : list N) : N :=
  match bs with
  | [] => 0
  | b :: bs' => b + 256 * le_word bs'
  end.

(** Padding: a single 1 bit, zeros up to 56 mod 64, the bit length on 64 bits. *)
Definition pad (msg : list N) : list N :=
  let len := N.of_nat (length msg) in
  msg ++ [0x80]
      ++ repeat 0 (N.to_nat ((119 - len mod 64) mod 64))
      ++ le_bytes 8 ((8 * len) mod 2 ^ 64).

(** Cut a list into consecutive groups of [n] elements. *)
Fixpoint chunks (fuel n : nat) (l : list N) : list (list N) :=
  match fuel with
  | O => []
  | Datatypes.S fuel' =>
      match l with
      | [] => []
      | _ => take n l :: chunks fuel' n (drop n l)
      end
  end.

Definition state : Type := N * N * N * N.

Definition init : state := (0x67452301, 0xefcdab89, 0x98badcfe, 0x10325476).

Definition step (M : list N) (st : state) (i : nat) : state :=
  let '(a, b, c, d) := st in
  let '(f, g) :=
    if (i <? 16)%nat then (F b c d, i)
    else if (i <? 32)%nat then (G b c d, ((5 * i + 1) mod 16)%nat)
    else if (i <? 48)%nat then (H b c d, ((3 * i + 5) mod 16)%nat)
    else (I b c d, ((7 * i) mod 16)%nat) in
  let f' := add32 (add32 (add32 f a) (nth i K 0)) (nth g M 0) in
  (d, add32 b (rotl32 f' (nth i S 0)), b, c).

Definition block (st : state) (blk : list N) : state :=
  let M := map le_word (chunks 16 4 blk) in
  let '(a0, b0, c0, d0) := st in
  let '(a, b, c, d) := fold_left (step M) (seq 0 64) st in
  (add32 a0 a, add32 b0 b, add32 c0 c, add32 d0 d).

Definition final (msg : list byte) : state :=
  let padded := pad (map Byte.to_N msg) in
  fold_left block (chunks (length padded) 64 padded) init.

(** The 16 bytes of the digest. *)
Definition digest (msg : list byte) : list N :=
  let '(a, b, c, d) := final msg in
  le_bytes 4 a ++ le_bytes 4 b ++ le_bytes 4 c ++ le_bytes 4 d.

Definition hex_digits : pystr := py "0123456789abcdef".

Definition hex_digit (n : N) : N := nth (N.to_nat (n mod 16)) hex_digits 0.

Definition hex_byte (b : N) : pystr := [hex_digit (b / 16); hex_digit b].

Definition hexdigest (msg : list byte) : pystr := flat_map hex_byte (digest msg).

End MD5.

(* ===================================================================== *)
(** * The password hasher *)
(* ===================================================================== *)

(** [range(start, stop, step)] for a positive step. *)
Definition py_range (start stop step : nat) : list nat :=
  map (fun k => (start + k * step)%nat) (seq 0 ((stop - start + step - 1) / step)%nat).

(** [s[i]] for a non-negative index. *)
Definition str_index (s : pystr) (i : nat) : result N :=
  match s !! i with
  | Some c => Ok c
  | None => Raise IndexError
  end.

(** The body of the loop of [hash_password]. *)
Definition hash_step (acc : result pystr) (i : nat) : result pystr :=
  rbind acc (fun password_md5 =>
  rbind (str_index password_md5 i) (fun ch =>
  if N.eqb ch 48 (* '0' *)
  then Ok (take i password_md5 ++ py "c" ++ drop (i + 1) password_md5)
  else Ok password_md5)).

Definition hash_password (password : pystr) : result pystr :=
  rbind (Utf8.encode password) (fun encoded =>
  let password_md5 := MD5.hexdigest encoded in
  fold_left hash_step (py_range 0 (length password_md5) 2) (Ok password_md5)).

(** The hasher as the specification words it: the MD5 hex digest of the
    UTF-8 encoding, where each character '0' at an even index among
    0, 2, ..., 30 is replaced by 'c'. *)
Definition hash_reference (p : pystr) : result pystr :=
  rbind (Utf8.encode p) (fun encoded =>
  Ok (imap (fun i ch =>
              if Nat.even i && (i <=? 30)%nat && N.eqb ch 48 then 99 (* 'c' *) else ch)
           (MD5.hexdigest encoded))).

(** ** Vocabulary of the statements about the hasher *)

Definition is_lower_hex (c : N) : bool :=
  ((48 <=? c) && (c <=? 57)) || ((97 <=? c) && (c <=? 102)).

(** What the loop computes, position by position, for a list [idx] of
    visited indices. *)
Definition subst_at (idx : list nat) (s : pystr) : pystr :=
  imap (fun j ch => if bool_decide (j ∈ idx) && N.eqb ch 48 then 99 else ch) s.

(** The digest of the specification: 32 lowercase hexadecimal characters
    with no '0' at an even index. *)
Definition growatt_digest (h : pystr) : Prop :=
  length h = 32%nat
  /\ Forall (fun c => is_lower_hex c = true) h
  /\ (forall i, Nat.even i = true -> (i <= 30)%nat -> h !! i <> Some 48).

(* ===================================================================== *)
(** * Values built by [json.loads] *)
(* ===================================================================== *)

Inductive json :=
| JNull
| JBool (b : bool)
| JInt (z : Z)
| JFloat (f : spec_float)
| JStr (s : pystr)
| JList (l : list json)
| JDict (d : gmap pystr json).

(** Python truth value testing, as [if data['success']:] applies it. *)
Definition truthy (v : json) : bool :=
  match v with
  | JNull => false
  | JBool b => b
  | JInt z => negb (Z.eqb z 0)
  | JFloat f => match f with S754_zero _ => false | _ => true end
  | JStr s => negb (Nat.eqb (length s) 0)
  | JList l => negb (Nat.eqb (length l) 0)
  | JDict d => negb (Nat.eqb (size d) 0)
  end.

(** [v[k]] for a string key [k]: only a dict can be subscripted by a string. *)
Definition getitem (v : json) (k : pystr) : result json :=
  match v with
  | JDict d =>
      match d !! k with
      | Some x => Ok x
      | None => Raise (KeyError k)
      end
  | _ => Raise TypeError
  end.

(** [d.update({k1: v1; ...})]: the pairs are stored in order. *)
Definition dict_update (d : gmap pystr json) (kvs : list (pystr * json)) : gmap pystr json :=
  fold_left (fun m kv => <[kv.1 := kv.2]> m) kvs d.

(* ===================================================================== *)
(** * [Timespan], dates and [strftime] *)
(* ===================================================================== *)

Module Timespan.

Inductive t := hour | day | month.

Definition value (x : t) : Z :=
  match x with hour => 0 | day => 1 | month => 2 end.

Definition members : list t := [hour; day; month].

#[global] Instance eq_dec : EqDecision t.
Proof. solve_decision. Defined.

(** An [IntEnum] member compares by its integer value. *)
Definition eqb (a b : t) : bool := Z.eqb (value a) (value b).

End Timespan.

(** A [datetime.date] ([time_of_day] is [None]) or a [datetime.datetime]
    ([time_of_day] holds hour, minute, second and microsecond). *)
Record pydate := {
  year : N;
  month : N;
  day : N;
  time_of_day : option (N * N * N * N)
}.

Fixpoint decimal_aux (fuel : nat) (n : N) (acc : pystr) : pystr :=
  match fuel with
  | O => acc
  | S fuel' =>
      let acc' := (48 + n mod 10) :: acc in
      if n / 10 =? 0 then acc' else decimal_aux fuel' (n / 10) acc'
  end.

(** The decimal digits of [n]; it has no more of them than binary digits. *)
Definition decimal (n : N) : pystr := decimal_aux (S (N.size_nat n)) n [].

(** [s.zfill(width)] on a string of digits. *)
Definition zfill (width : nat) (s : pystr) : pystr :=
  repeat 48 (width - length s) ++ s.

Definition is_decimal_digit (c : N) : bool := (48 <=? c) && (c <=? 57).

(** [s] is made of exactly [width] decimal digits. *)
Definition digits_ok (width : nat) (s : pystr) : bool :=
  (length s =? width)%nat && forallb is_decimal_digit s.

(* ===================================================================== *)
(** * Requests, the transport and the world *)
(* ===================================================================== *)

Inductive verb := GET | POST.

(** A value of a request parameter: a string or an integer. *)
Inductive param :=
| PStr (s : pystr)
| PInt (z : Z).

Record Request := {
  method : verb;
  url : pystr;
  params : list (pystr * param);   (* the [params=] dict, in source order *)
  data : list (pystr * param);     (* the [data=] dict, in source order *)
  allow_redirects : bool
}.

(** Value stored under a key of a parameter dict. *)
Fixpoint assoc (k : pystr) (l : list (pystr * param)) : option param :=
  match l with
  | [] => None
  | (k', v) :: l' => if decide (k = k') then Some v else assoc k l'
  end.

Inductive warning_category := DeprecationWarning.

(** What the client does not define itself: the HTTP transport behind
    [requests.Session] with its own state (cookies, the server), and the
    two decoders applied to a response body. *)
Class Runtime := {
  Wire : Type;
  (** one HTTP exchange; [None] when the transport raises *)
  transport : Request -> Wire -> Wire * option (list byte);
  (** [bytes.decode('utf-8')]; [None] is UnicodeDecodeError *)
  bytes_decode : list byte -> option pystr;
  (** [json.loads]; [None] is JSONDecodeError *)
  json_loads : pystr -> option json;
  (** the C library's rendering of the directive [%Y]: the decimal digits
      of a year of four digits; below 1000 the platform decides whether
      leading zeros are written *)
  strftime_Y : N -> pystr;
  strftime_Y_four_digits : forall y, 1000 <= y <= 9999 -> strftime_Y y = decimal y
}.

Section Client.

Context {RT : Runtime}.

(** The state every method runs in.  [exchanged] and [warned] record, in
    order, the HTTP exchanges performed and the warnings issued. *)
Record World := {
  wire : Wire;
  exchanged : list (Request * option (list byte));
  warned : list (warning_category * pystr);
  clock : pydate
}.

(** Computations of the client: a state and exception monad. *)
Definition M (A : Type) : Type := World -> World * result A.

Definition ret {A} (a : A) : M A := fun w => (w, Ok a).

Definition raise {A} (e : exn) : M A := fun w => (w, Raise e).

Definition bind {A B} (c : M A) (k : A -> M B) : M B :=
  fun w =>
    match c w with
    | (w', Ok a) => k a w'
    | (w', Raise e) => (w', Raise e)
    end.

Definition lift {A} (r : result A) : M A := fun w => (w, r).

Notation "x <- c ;; k" := (bind c (fun x => k))
  (at level 20, c at level 99, k at level 200, only parsing).

(** [datetime.datetime.now()] and [datetime.date.today()]. *)
Definition datetime_now : M pydate :=
  fun w =>
    let c := clock w in
    (w, Ok {| year := year c; month := month c; day := day c;
              time_of_day := Some (default (0, 0, 0, 0) (time_of_day c)) |}).

Definition date_today : M pydate :=
  fun w =>
    let c := clock w in
    (w, Ok {| year := year c; month := month c; day := day c; time_of_day := None |}).

(** [warnings.warn(message, category)]. *)
Definition warnings_warn (message : pystr) (category : warning_category) : M unit :=
  fun w =>
    ({| wire := wire w; exchanged := exchanged w;
        warned := warned w ++ [(category, message)]; clock := clock w |}, Ok tt).

(** [self.session.request(...)] followed by [response.content]. *)
Definition session_request (req : Request) : M (list byte) :=
  fun w =>
    let '(wire', answer) := transport req (wire w) in
    ({| wire := wire'; exchanged := exchanged w ++ [(req, answer)];
        warned := warned w; clock := clock w |},
     match answer with
     | Some content => Ok content
     | None => Raise RequestException
     end).

Definition session_get (u : pystr) (ps : list (pystr * param)) (redirects : bool)
  : M (list byte) :=
  session_request {| method := GET; url := u; params := ps; data := [];
                     allow_redirects := redirects |}.

Definition session_post (u : pystr) (ps ds : list (pystr * param)) : M (list byte) :=
  session_request {| method := POST; url := u; params := ps; data := ds;
                     allow_redirects := true |}.

(** [json.loads(response.content.decode('utf-8'))]. *)
Definition decode_json (content : list byte) : result json :=
  match bytes_decode content with
  | None => Raise UnicodeDecodeError
  | Some text =>
      match json_loads text with
      | None => Raise JSONDecodeError
      | Some j => Ok j
      end
  end.

(** [date.strftime(fmt)] for the directives the client uses: [%Y] is the
    year with century, [%m] and [%d] the month and the day on two digits;
    any other character is copied. *)
Fixpoint strftime (fmt : pystr) (d : pydate) : pystr :=
  match fmt with
  | [] => []
  | c :: rest =>
      if N.eqb c 37 (* % *) then
        match rest with
        | [] => [c]
        | k :: rest' =>
            if N.eqb k 89 (* Y *) then strftime_Y (year d) ++ strftime rest' d
            else if N.eqb k 109 (* m *) then zfill 2 (decimal (month d)) ++ strftime rest' d
            else if N.eqb k 100 (* d *) then zfill 2 (decimal (day d)) ++ strftime rest' d
            else c :: k :: strftime rest' d
        end
      else c :: strftime rest d
  end.

(** The two formats as the specification names them. *)
Definition format_YYYY_MM (d : pydate) : pystr :=
  strftime_Y (year d) ++ py "-" ++ zfill 2 (decimal (month d)).

Definition format_YYYY_MM_DD (d : pydate) : pystr :=
  strftime_Y (year d) ++ py "-" ++ zfill 2 (decimal (month d))
    ++ py "-" ++ zfill 2 (decimal (day d)).

(* ===================================================================== *)
(** * [class GrowattApi] *)
(* ===================================================================== *)

Record GrowattApi := {
  server_url : pystr;
  agent_identifier : pystr
}.

(** The class attributes, which an instance starts from. *)
Definition default_api : GrowattApi :=
  {| server_url := py "https://server-api.growatt.com/";
     agent_identifier :=
       py "Dalvik/2.1.0 (Linux; U; Android 12; https://github.com/indykoning/PyPi_GrowattServer)" |}.

Definition get_date_string (timespan : option Timespan.t) (date : option pydate) : M pystr :=
  _ <- match timespan with
       | Some ts =>
           (* assert timespan in Timespan *)
           if bool_decide (ts ∈ Timespan.members) then ret tt else raise AssertionError
       | None => ret tt
       end ;;
  (* a date or a datetime is always true, so [date or now()] keeps it *)
  date <- match date with
          | Some d => ret d
          | None => datetime_now
          end ;;
  if match timespan with
     | Some ts => Timespan.eqb ts Timespan.month
     | None => false
     end
  then ret (strftime (py "%Y-%m") date)
  else ret (strftime (py "%Y-%m-%d") date).

Definition get_url (self : GrowattApi) (page : pystr) : pystr :=
  server_url self ++ page.

Definition login (self : GrowattApi) (username password : pystr)
    (is_password_hashed : bool) : M json :=
  password <- (if negb is_password_hashed
               then lift (hash_password password)
               else ret password) ;;
  content <- session_post (get_url self (py "newTwoLoginAPI.do")) []
               [(py "userName", PStr username);
                (py "password", PStr password);
                (py "NewLogin", PInt 1)] ;;
  body <- lift (decode_json content) ;;
  data <- lift (getitem body (py "back")) ;;
  success <- lift (getitem data (py "success")) ;;
  if truthy success then
    user <- lift (getitem data (py "user")) ;;
    user_id <- lift (getitem user (py "parentUserId")) ;;
    user' <- lift (getitem data (py "user")) ;;
    user_level <- lift (getitem user' (py "rightlevel")) ;;
    match data with
    | JDict d =>
        ret (JDict (dict_update d [(py "userId", user_id); (py "userLevel", user_level)]))
    | _ => raise TypeError   (* not reached: [data['success']] has succeeded *)
    end
  else ret data.

Definition plant_list (self : GrowattApi) (user_id : pystr) : M json :=
  content <- session_get (get_url self (py "PlantListAPI.do"))
               [(py "userId", PStr user_id)] false ;;
  body <- lift (decode_json content) ;;
  lift (getitem body (py "back")).

Definition new_plant_list (self : GrowattApi) (user_id : pystr) : M json :=
  content <- session_get (get_url self (py "newPlantListAPI.do"))
               [(py "userId", PStr user_id)] false ;;
  body <- lift (decode_json content) ;;
  lift (getitem body (py "back")).

Definition plant_detail (self : GrowattApi) (plant_id : pystr)
    (timespan : Timespan.t) (date : option pydate) : M json :=
  date_str <- get_date_string (Some timespan) date ;;
  content <- session_get (get_url self (py "newPlantDetailAPI.do"))
               [(py "plantId", PStr plant_id);
                (py "type", PInt (Timespan.value timespan));
                (py "date", PStr date_str)] true ;;
  body <- lift (decode_json content) ;;
  lift (getitem body (py "back")).

Definition inverter_data (self : GrowattApi) (inverter_id : pystr)
    (date : option pydate) : M json :=
  date <- match date with
          | Some d => ret d
          | None => date_today
          end ;;
  date_str <- get_date_string (Some Timespan.hour) (Some date) ;;
  content <- session_get (get_url self (py "newInverterAPI.do"))
               [(py "op", PStr (py "getInverterData"));
                (py "id", PStr inverter_id);
                (py "type", PInt 1);
                (py "date", PStr date_str)] true ;;
  lift (decode_json content).

Definition inverter_detail (self : GrowattApi) (inverter_id : pystr) : M json :=
  content <- session_get (get_url self (py "newInverterAPI.do"))
               [(py "op", PStr (py "getInverterDetailData"));
                (py "inverterId", PStr inverter_id)] true ;;
  lift (decode_json content).

Definition inverter_detail_two (self : GrowattApi) (inverter_id : pystr) : M json :=
  content <- session_get (get_url self (py "newInverterAPI.do"))
               [(py "op", PStr (py "getInverterDetailData_two"));
                (py "inverterId", PStr inverter_id)] true ;;
  lift (decode_json content).

Definition tlx_data (self : GrowattApi) (tlx_id : pystr) (date : option pydate) : M json :=
  date_str <- get_date_string None date ;;
  content <- session_get (get_url self (py "TlxApi.do"))
               [(py "op", PStr (py "getTlxData"));
                (py "id", PStr tlx_id);
                (py "type", PInt 1);
                (py "date", PStr date_str)] true ;;
  lift (decode_json content).

Definition tlx_detail (self : GrowattApi) (tlx_id : pystr) : M json :=
  content <- session_get (get_url self (py "TlxApi.do"))
               [(py "op", PStr (py "getTlxDetailData"));
                (py "id", PStr tlx_id)] true ;;
  lift (decode_json content).

(** [plant_id] is optional; [if plant_id:] also skips the empty string. *)
Definition mix_info (self : GrowattApi) (mix_id : pystr) (plant_id : option pystr) : M json :=
  let params := [(py "op", PStr (py "getMixInfo")); (py "mixId", PStr mix_id)] in
  let params :=
    match plant_id with
    | Some p => if negb (Nat.eqb (length p) 0) then params ++ [(py "plantId", PStr p)] else params
    | None => params
    end in
  content <- session_get (get_url self (py "newMixApi.do")) params true ;;
  body <- lift (decode_json content) ;;
  lift (getitem body (py "obj")).

Definition mix_totals (self : GrowattApi) (mix_id plant_id : pystr) : M json :=
  content <- session_post (get_url self (py "newMixApi.do"))
               [(py "op", PStr (py "getEnergyOverview"));
                (py "mixId", PStr mix_id);
                (py "plantId", PStr plant_id)] [] ;;
  body <- lift (decode_json content) ;;
  lift (getitem body (py "obj")).

Definition mix_system_status (self : GrowattApi) (mix_id plant_id : pystr) : M json :=
  content <- session_post (get_url self (py "newMixApi.do"))
               [(py "op", PStr (py "getSystemStatus_KW"));
                (py "mixId", PStr mix_id);
                (py "plantId", PStr plant_id)] [] ;;
  body <- lift (decode_json content) ;;
  lift (getitem body (py "obj")).

(** [timespan] defaults to [Timespan.day] in the source. *)
Definition mix_detail (self : GrowattApi) (mix_id plant_id : pystr)
    (timespan : Timespan.t) (date : option pydate) : M json :=
  date_str <- get_date_string (Some timespan) date ;;
  content <- session_post (get_url self (py "newMixApi.do"))
               [(py "op", PStr (py "getEnergyProdAndCons_KW"));
                (py "plantId", PStr plant_id);
                (py "mixId", PStr mix_id);
                (py "type", PInt (Timespan.value timespan));
                (py "date", PStr date_str)] [] ;;
  body <- lift (decode_json content) ;;
  lift (getitem body (py "obj")).

(** [timespan] defaults to [Timespan.hour] in the source. *)
Definition dashboard_data (self : GrowattApi) (plant_id : pystr)
    (timespan : Timespan.t) (date : option pydate) : M json :=
  date_str <- get_date_string (Some timespan) date ;;
  content <- session_post (get_url self (py "newPlantAPI.do"))
               [(py "action", PStr (py "getEnergyStorageData"));
                (py "date", PStr date_str);
                (py "type", PInt (Timespan.value timespan));
                (py "plantId", PStr plant_id)] [] ;;
  lift (decode_json content).

Definition storage_detail (self : GrowattApi) (storage_id : pystr) : M json :=
  content <- session_get (get_url self (py "StorageAPI.do"))
               [(py "op", PStr (py "getStorageInfo_sacolar"));
                (py "storageId", PStr storage_id)] true ;;
  lift (decode_json content).

Definition storage_params (self : GrowattApi) (storage_id : pystr) : M json :=
  content <- session_get (get_url self (py "StorageAPI.do"))
               [(py "op", PStr (py "getStorageParams_sacolar"));
                (py "storageId", PStr storage_id)] true ;;
  lift (decode_json content).

Definition storage_energy_overview (self : GrowattApi) (plant_id storage_id : pystr) : M json :=
  content <- session_post (get_url self (py "StorageAPI.do?op=getEnergyOverviewData_sacolar"))
               [(py "plantId", PStr plant_id);
                (py "storageSn", PStr storage_id)] [] ;;
  body <- lift (decode_json content) ;;
  lift (getitem body (py "obj")).

Definition plant_info (self : GrowattApi) (plant_id : pystr) : M json :=
  content <- session_get (get_url self (py "TwoPlantAPI.do"))
               [(py "op", PStr (py "getAllDeviceList"));
                (py "plantId", PStr plant_id);
                (py "pageNum", PInt 1);
                (py "pageSize", PInt 1)] true ;;
  lift (decode_json content).

Definition device_list (self : GrowattApi) (plant_id : pystr) : M json :=
  info <- plant_info self plant_id ;;
  lift (getitem info (py "deviceList")).

Definition deprecation_message : pystr :=
  py "This function may be deprecated in the future because naming is not correct, use device_list instead".

Definition inverter_list (self : GrowattApi) (plant_id : pystr) : M json :=
  _ <- warnings_warn deprecation_message DeprecationWarning ;;
  device_list self plant_id.

Definition get_plant_settings (self : GrowattApi) (plant_id : pystr) : M json :=
  content <- session_get (get_url self (py "PlantAPI.do"))
               [(py "op", PStr (py "getPlant"));
                (py "plantId", PStr plant_id)] true ;;
  lift (decode_json content).

(* ===================================================================== *)
(** * The public operations as data *)
(* ===================================================================== *)

(** One constructor per public method with its arguments, so that a
    statement can range over every operation of the client. *)
Inductive Call :=
| Login (username password : pystr) (is_password_hashed : bool)
| PlantList (user_id : pystr)
| NewPlantList (user_id : pystr)
| PlantDetail (plant_id : pystr) (timespan : Timespan.t) (date : option pydate)
| InverterData (inverter_id : pystr) (date : option pydate)
| InverterDetail (inverter_id : pystr)
| InverterDetailTwo (inverter_id : pystr)
| TlxData (tlx_id : pystr) (date : option pydate)
| TlxDetail (tlx_id : pystr)
| MixInfo (mix_id : pystr) (plant_id : option pystr)
| MixTotals (mix_id plant_id : pystr)
| MixSystemStatus (mix_id plant_id : pystr)
| MixDetail (mix_id plant_id : pystr) (timespan : Timespan.t) (date : option pydate)
| DashboardData (plant_id : pystr) (timespan : Timespan.t) (date : option pydate)
| StorageDetail (storage_id : pystr)
| StorageParams (storage_id : pystr)
| StorageEnergyOverview (plant_id storage_id : pystr)
| InverterList (plant_id : pystr)
| DeviceList (plant_id : pystr)
| PlantInfo (plant_id : pystr)
| GetPlantSettings (plant_id : pystr).

Definition call (self : GrowattApi) (c : Call) : M json :=
  match c with
  | Login u p h => login self u p h
  | PlantList u => plant_list self u
  | NewPlantList u => new_plant_list self u
  | PlantDetail p ts d => plant_detail self p ts d
  | InverterData i d => inverter_data self i d
  | InverterDetail i => inverter_detail self i
  | InverterDetailTwo i => inverter_detail_two self i
  | TlxData t d => tlx_data self t d
  | TlxDetail t => tlx_detail self t
  | MixInfo m p => mix_info self m p
  | MixTotals m p => mix_totals self m p
  | MixSystemStatus m p => mix_system_status self m p
  | MixDetail m p ts d => mix_detail self m p ts d
  | DashboardData p ts d => dashboard_data self p ts d
  | StorageDetail s => storage_detail self s
  | StorageParams s => storage_params self s
  | StorageEnergyOverview p s => storage_energy_overview self p s
  | InverterList p => inverter_list self p
  | DeviceList p => device_list self p
  | PlantInfo p => plant_info self p
  | GetPlantSettings p => get_plant_settings self p
  end.

Definition is_login (c : Call) : bool :=
  match c with Login _ _ _ => true | _ => false end.

(** The column "Unwrap field" of the table of operations in the
    specification; [None] stands for "whole body".  The deprecated alias
    [inverter_list] is listed with the field of [device_list]. *)
Definition spec_unwrap_field (c : Call) : option pystr :=
  match c with
  | Login _ _ _ | PlantList _ | NewPlantList _ | PlantDetail _ _ _ => Some (py "back")
  | MixInfo _ _ | MixTotals _ _ | MixSystemStatus _ _ | MixDetail _ _ _ _
  | StorageEnergyOverview _ _ => Some (py "obj")
  | DeviceList _ | InverterList _ => Some (py "deviceList")
  | InverterData _ _ | InverterDetail _ | InverterDetailTwo _ | TlxData _ _
  | TlxDetail _ | DashboardData _ _ _ | StorageDetail _ | StorageParams _
  | PlantInfo _ | GetPlantSettings _ => None
  end.

(** The run from [w] to [w'] performed exactly one HTTP exchange, and the
    transport answered it with the body [content]. *)
Definition answered (w w' : World) (content : list byte) : Prop :=
  exists req, exchanged w' = exchanged w ++ [(req, Some content)].

(** The taxonomy of the specification, read on Python's exceptions. *)
Definition is_decode_error (e : exn) : bool :=
  match e with UnicodeDecodeError | JSONDecodeError => true | _ => false end.

Definition is_shape_error (e : exn) : bool :=
  match e with KeyError _ | TypeError => true | _ => false end.

(** The part of [login] that follows the decoding of the response. *)
Definition login_post (body : json) : result json :=
  rbind (getitem body (py "back")) (fun data =>
  rbind (getitem data (py "success")) (fun success =>
  if truthy success then
    rbind (getitem data (py "user")) (fun user =>
    rbind (getitem user (py "parentUserId")) (fun user_id =>
    rbind (getitem user (py "rightlevel")) (fun user_level =>
    match data with
    | JDict d =>
        Ok (JDict (<[py "userLevel" := user_level]> (<[py "userId" := user_id]> d)))
    | _ => Raise TypeError
    end)))
  else Ok data)).

(** The part of each operation that follows the decoding of the response. *)
Definition post (c : Call) (body : json) : result json :=
  match c with
  | Login _ _ _ => login_post body
  | _ =>
      match spec_unwrap_field c with
      | Some field => getitem body field
      | None => Ok body
      end
  end.

End Client.

(* ===================================================================== *)
(** * A mocked transport with fixed JSON bodies *)
(* ===================================================================== *)

Module Fixture.

Definition is_ws (c : N) : bool :=
  N.eqb c 32 || N.eqb c 9 || N.eqb c 10 || N.eqb c 13.

Definition is_digit (c : N) : bool := (48 <=? c) && (c <=? 57).

Fixpoint skip_ws (s : pystr) : pystr :=
  match s with
  | c :: r => if is_ws c then skip_ws r else s
  | [] => []
  end.

(** After an opening quote: the characters up to the closing quote.
    Escapes are outside the subset of the fixtures. *)
Fixpoint scan_string (s : pystr) : option (pystr * pystr) :=
  match s with
  | [] => None
  | c :: r =>
      if N.eqb c 34 then Some ([], r)
      else if N.eqb c 92 || (c <? 32) then None
      else match scan_string r with
           | Some (str, rest) => Some (c :: str, rest)
           | None => None
           end
  end.

Fixpoint scan_digits (s : pystr) (acc : Z) : Z * pystr :=
  match s with
  | c :: r => if is_digit c then scan_digits r (10 * acc + Z.of_N (c - 48))%Z else (acc, s)
  | [] => (acc, [])
  end.

(** An integer literal; fractions and exponents are outside the subset. *)
Definition scan_int (s : pystr) : option (Z * pystr) :=
  let '(neg, s) := match s with
                   | c :: r => if N.eqb c 45 then (true, r) else (false, s)
                   | [] => (false, s)
                   end in
  match s with
  | c :: r =>
      if is_digit c then
        let '(z, rest) := if N.eqb c 48 then (0%Z, r) else scan_digits s 0 in
        match rest with
        | k :: _ => if N.eqb k 46 || N.eqb k 101 || N.eqb k 69 then None
                    else Some (if neg then (- z)%Z else z, rest)
        | [] => Some (if neg then (- z)%Z else z, rest)
        end
      else None
  | [] => None
  end.

Fixpoint strip_prefix (p s : pystr) : option pystr :=
  match p, s with
  | [], _ => Some s
  | a :: p', b :: s' => if N.eqb a b then strip_prefix p' s' else None
  | _ :: _, [] => None
  end.

Fixpoint parse_value (fuel : nat) (s : pystr) {struct fuel} : option (json * pystr) :=
  match fuel with
  | O => None
  | S fuel' =>
      match skip_ws s with
      | [] => None
      | c :: r =>
          if N.eqb c 34 then
            match scan_string r with
            | Some (str, rest) => Some (JStr str, rest)
            | None => None
            end
          else if N.eqb c 123 then parse_members fuel' r ∅ true
          else if N.eqb c 91 then parse_elements fuel' r [] true
          else if N.eqb c 116 then
            match strip_prefix (py "rue") r with
            | Some rest => Some (JBool true, rest) | None => None end
          else if N.eqb c 102 then
            match strip_prefix (py "alse") r with
            | Some rest => Some (JBool false, rest) | None => None end
          else if N.eqb c 110 then
            match strip_prefix (py "ull") r with
            | Some rest => Some (JNull, rest) | None => None end
          else
            match scan_int (c :: r) with
            | Some (z, rest) => Some (JInt z, rest)
            | None => None
            end
      end
  end
with parse_members (fuel : nat) (s : pystr) (acc : gmap pystr json) (first : bool)
    {struct fuel} : option (json * pystr) :=
  match fuel with
  | O => None
  | S fuel' =>
      match skip_ws s with
      | [] => None
      | c :: r =>
          if N.eqb c 125 && first then Some (JDict acc, r)
          else if N.eqb c 34 then
            match scan_string r with
            | Some (k, rest) =>
                match skip_ws rest with
                | c2 :: r2 =>
                    if N.eqb c2 58 then
                      match parse_value fuel' r2 with
                      | Some (v, rest2) =>
                          match skip_ws rest2 with
                          | c3 :: r3 =>
                              if N.eqb c3 44 then parse_members fuel' r3 (<[k:=v]> acc) false
                              else if N.eqb c3 125 then Some (JDict (<[k:=v]> acc), r3)
                              else None
                          | [] => None
                          end
                      | None => None
                      end
                    else None
                | [] => None
                end
            | None => None
            end
          else None
      end
  end
with parse_elements (fuel : nat) (s : pystr) (acc : list json) (first : bool)
    {struct fuel} : option (json * pystr) :=
  match fuel with
  | O => None
  | S fuel' =>
      match skip_ws s with
      | [] => None
      | c :: r =>
          if N.eqb c 93 && first then Some (JList acc, r)
          else
            match parse_value fuel' (c :: r) with
            | Some (v, rest) =>
                match skip_ws rest with
                | c3 :: r3 =>
                    if N.eqb c3 44 then parse_elements fuel' r3 (acc ++ [v]) false
                    else if N.eqb c3 93 then Some (JList (acc ++ [v]), r3)
                    else None
                | [] => None
                end
            | None => None
            end
      end
  end.

(** A decoder for the JSON subset of the fixtures: objects, arrays,
    strings without escapes, integers, [true], [false] and [null]. *)
Definition loads (s : pystr) : option json :=
  match parse_value (S (length s)) s with
  | Some (v, rest) =>
      match skip_ws rest with
      | [] => Some v
      | _ :: _ => None
      end
  | None => None
  end.

(** The fixture bodies are ASCII, where UTF-8 decoding maps a byte to the
    code point of the same value. *)
Definition ascii_decode (bs : list byte) : option pystr :=
  if forallb (fun b => Byte.to_N b <? 128) bs then Some (map Byte.to_N bs) else None.

(** The bytes of a fixture text, in which ['] is written for the double
    quote. *)
Definition body (text : string) : list byte :=
  map (fun c => Utf8.byte_of_N (if N.eqb c 39 then 34 else c)) (py text).

(** The transport hands out the queued bodies in order, and fails when
    none is left. *)
#[global] Instance runtime : Runtime := {|
  Wire := list (list byte);
  transport := fun _ queue =>
    match queue with
    | b :: queue' => (queue', Some b)
    | [] => ([], None)
    end;
  bytes_decode := ascii_decode;
  json_loads := loads;
  strftime_Y := decimal;
  strftime_Y_four_digits := fun _ _ => eq_refl
|}.

(** Bodies served by the mocked transport. *)
Definition login_ok_body : list byte :=
  body "{'back': {'success': true, 'user': {'parentUserId': '7', 'rightlevel': '1'}}}".

Definition login_rejected_body : list byte :=
  body "{'back': {'success': false, 'msg': '501'}}".

Definition mix_body : list byte :=
  body "{'result': 1, 'obj': {'soc': 80}}".

Definition plant_info_body : list byte :=
  body "{'deviceList': [{'deviceSn': 'ABC'}], 'invTodayPpv': '0'}".

Definition html_body : list byte :=
  body "<html>502 Bad Gateway</html>".

Definition no_back_body : list byte :=
  body "{'error': 'no session'}".

Definition world (bodies : list (list byte)) : World :=
  {| wire := bodies; exchanged := []; warned := [];
     clock := {| year := 2024; month := 3; day := 15;
                 time_of_day := Some (12, 0, 0, 0) |} |}.

End Fixture.

(* ===================================================================== *)
(** * The constructor and the start of the script *)
(* ===================================================================== *)

(** [''.join(str(randint(0, 9)) for _ in range(5))], where [randint k] is
    the value returned by the [k]-th call of [randint(0, 9)]. *)
Definition random_number (randint : nat -> N) : pystr :=
  flat_map (fun k => decimal (randint k)) (seq 0 5).

(** [GrowattApi.__init__]: the instance attributes, and the dict passed to
    [self.session.headers.update].  An identifier that is [None] or empty
    is false and keeps the class attribute. *)
Definition init (add_random_user_id : bool) (identifier : option pystr)
    (randint : nat -> N) : GrowattApi * list (pystr * pystr) :=
  let self := default_api in
  let self :=
    match identifier with
    | Some a =>
        if negb (Nat.eqb (length a) 0)
        then {| server_url := server_url self; agent_identifier := a |}
        else self
    | None => self
    end in
  let self :=
    if add_random_user_id
    then {| server_url := server_url self;
            agent_identifier :=
              agent_identifier self ++ py " - " ++ random_number randint |}
    else self in
  (self, [(py "User-Agent", agent_identifier self)]).

Section Script.

Context {RT : Runtime}.

(** The first statements of the script, up to the argument of its second
    request: [api = GrowattApi()], [login_response = api.login(username,
    password)], then [login_response['userId']]. *)
Definition script_user_id (username password : pystr) : M json :=
  let api := (init false None (fun _ => 0)).1 in
  bind (login api username password false) (fun login_response =>
  lift (getitem login_response (py "userId"))).

End Script.

(** A body that announces success without the user data. *)
Definition no_user_body : list byte :=
  Fixture.body "{'back': {'success': true, 'msg': ''}}".

(** A body that is not UTF-8, and one that is JSON but not an object. *)
Definition latin1_body : list byte := [Byte.xe9].

Definition array_body : list byte := Fixture.body "[1, 2]".

(** ** Vocabulary of the further statements *)

(** The two characters [hash_password] writes for a byte of the digest. *)
Definition growatt_byte (b : N) : pystr :=
  if b <? 16 then [99; MD5.hex_digit b] else MD5.hex_byte b.

(** The operations whose request depends on a timespan and a date. *)
Definition windowed (c : Call) : option (Timespan.t * option pydate) :=
  match c with
  | PlantDetail _ ts d | MixDetail _ _ ts d | DashboardData _ ts d => Some (ts, d)
  | _ => None
  end.

(** The operations written with [self.session.post]. *)
Definition uses_post (c : Call) : bool :=
  match c with
  | Login _ _ _ | MixTotals _ _ | MixSystemStatus _ _ | MixDetail _ _ _ _
  | DashboardData _ _ _ | StorageEnergyOverview _ _ => true
  | _ => false
  end.

(** The operations written with [allow_redirects=False]. *)
Definition forbids_redirects (c : Call) : bool :=
  match c with
  | PlantList _ | NewPlantList _ => true
  | _ => false
  end.

Definition is_inverter_list (c : Call) : bool :=
  match c with InverterList _ => true | _ => false end.

(** The date a windowed request is about: the supplied one, or the
    clock's, as [datetime.datetime.now()] returns it. *)
Definition date_or_now {RT : Runtime} (date : option pydate) (w : World) : pydate :=
  match date with
  | Some d => d
  | None => {| year := year (clock w); month := month (clock w); day := day (clock w);
               time_of_day := Some (default (0, 0, 0, 0) (time_of_day (clock w))) |}
  end.

(** The date string of a timespan. *)
Definition date_string {RT : Runtime} (ts : option Timespan.t) (d : pydate) : pystr :=
  match ts with
  | Some Timespan.month => format_YYYY_MM d
  | _ => format_YYYY_MM_DD d
  end.

(* ===================================================================== *)
(** * Known digests *)
(* ===================================================================== *)

Example md5_empty : MD5.hexdigest [] = py "d41d8cd98f00b204e9800998ecf8427e".
Proof. vm_compute. reflexivity. Qed.

Example md5_abc :
  rbind (Utf8.encode (py "abc")) (fun b => Ok (MD5.hexdigest b))
  = Ok (py "900150983cd24fb0d6963f7d28e17f72").
Proof. vm_compute. reflexivity. Qed.

Example md5_two_blocks :
  rbind (Utf8.encode (repeat 120 56)) (fun b => Ok (MD5.hexdigest b))
  = Ok (py "668a72d5ba17f08e62dabcafad6db14b").
Proof. vm_compute. reflexivity. Qed.

Example md5_e_acute :
  rbind (Utf8.encode [233]) (fun b => Ok (MD5.hexdigest b))
  = Ok (py "66ddcd97cfdeabb2f6fb8a999b4bc76f").
Proof. vm_compute. reflexivity. Qed.

Example md5_four_byte_characters :
  rbind (Utf8.encode [0x7FF; 0x800; 0xFFFF; 0x10000; 0x10FFFF]) (fun b => Ok (MD5.hexdigest b))
  = Ok (py "312328fd0eda76f11291125ce70c9c7a").
Proof. vm_compute. reflexivity. Qed.

Example md5_full_block :
  rbind (Utf8.encode (repeat 121 64)) (fun b => Ok (MD5.hexdigest b))
  = Ok (py "b0c4864f4e28d2d76929c38d87db7ed5").
Proof. vm_compute. reflexivity. Qed.

Example hash_password_6 :
  hash_password (py "6") = Ok (py "1679c91c5a88cfaf6fb5e6c87eb1b2dc").
Proof. vm_compute. reflexivity. Qed.

(* ===================================================================== *)
(** * Properties of the digest and of the substitution loop *)
(* ===================================================================== *)

Lemma le_bytes_length n x : length (MD5.le_bytes n x) = n.
Proof. revert x; induction n as [|n IH]; intros x; simpl; [reflexivity | now rewrite IH]. Qed.

Lemma digest_length msg : length (MD5.digest msg) = 16%nat.
Proof.
  unfold MD5.digest. destruct (MD5.final msg) as [[[a b] c] d].
  rewrite !length_app, !le_bytes_length. reflexivity.
Qed.

Lemma flat_map_hex_length (bs : list N) :
  length (flat_map MD5.hex_byte bs) = (2 * length bs)%nat.
Proof. induction bs as [|b bs IH]; simpl; [reflexivity | rewrite IH; lia]. Qed.

Lemma hexdigest_length msg : length (MD5.hexdigest msg) = 32%nat.
Proof. unfold MD5.hexdigest. now rewrite flat_map_hex_length, digest_length. Qed.

Lemma hex_digit_lower n : is_lower_hex (MD5.hex_digit n) = true.
Proof.
  unfold MD5.hex_digit.
  assert (Hlt : (N.to_nat (n mod 16) < 16)%nat).
  { pose proof (N.mod_upper_bound n 16 ltac:(discriminate)). lia. }
  revert Hlt. generalize (N.to_nat (n mod 16)). intros k Hk.
  do 16 (destruct k as [|k]; [reflexivity|]). lia.
Qed.

Lemma hexdigest_lower msg : Forall (fun c => is_lower_hex c = true) (MD5.hexdigest msg).
Proof.
  unfold MD5.hexdigest. induction (MD5.digest msg) as [|b bs IH]; simpl.
  - constructor.
  - repeat constructor; auto using hex_digit_lower.
Qed.

Lemma subst_at_length idx s : length (subst_at idx s) = length s.
Proof. unfold subst_at. apply length_imap. Qed.

Lemma subst_at_lookup idx s j :
  subst_at idx s !! j =
  (fun ch => if bool_decide (j ∈ idx) && N.eqb ch 48 then 99 else ch) <$> s !! j.
Proof. unfold subst_at. now rewrite list_lookup_imap. Qed.

Lemma subst_at_nil s : subst_at [] s = s.
Proof.
  apply list_eq; intros j. rewrite subst_at_lookup.
  destruct (s !! j) as [ch|]; [|reflexivity]. cbn [fmap option_fmap option_map].
  rewrite bool_decide_eq_false_2; [reflexivity | apply not_elem_of_nil].
Qed.

Lemma subst_at_singleton s i ch :
  s !! i = Some ch ->
  subst_at [i] s = if N.eqb ch 48 then <[i:=99]> s else s.
Proof.
  intros Hch. apply list_eq; intros j. rewrite subst_at_lookup.
  destruct (decide (j = i)) as [->|Hne].
  - rewrite Hch. cbn [fmap option_fmap option_map].
    rewrite bool_decide_eq_true_2 by (apply list_elem_of_singleton; reflexivity).
    cbn [andb]. destruct (N.eqb ch 48).
    + rewrite list_lookup_insert_eq; [reflexivity | eapply lookup_lt_Some; eassumption].
    + now rewrite Hch.
  - rewrite bool_decide_eq_false_2 by (rewrite list_elem_of_singleton; exact Hne).
    cbn [andb]. destruct (N.eqb ch 48).
    + rewrite list_lookup_insert_ne by congruence. now destruct (s !! j).
    + now destruct (s !! j).
Qed.

(** One iteration replaces position [i] and nothing else. *)
Lemma hash_step_ok s i :
  (i < length s)%nat ->
  hash_step (Ok s) i = Ok (subst_at [i] s).
Proof.
  intros Hi. destruct (lookup_lt_is_Some_2 s i Hi) as [ch Hch].
  rewrite (subst_at_singleton s i ch Hch).
  unfold hash_step, str_index, rbind. rewrite Hch.
  destruct (N.eqb ch 48); [|reflexivity].
  f_equal. change (py "c") with [99]. cbn [app].
  rewrite Nat.add_1_r. symmetry. now apply insert_take_drop.
Qed.

Lemma subst_at_cons i idx s : subst_at idx (subst_at [i] s) = subst_at (i :: idx) s.
Proof.
  apply list_eq; intros j. rewrite !subst_at_lookup.
  destruct (s !! j) as [ch|]; [|reflexivity]. cbn [fmap option_fmap option_map]. f_equal.
  destruct (decide (j = i)) as [->|Hne].
  - rewrite (bool_decide_eq_true_2 (i ∈ [i])) by (apply list_elem_of_singleton; reflexivity).
    rewrite (bool_decide_eq_true_2 (i ∈ i :: idx)) by apply list_elem_of_here.
    cbn [andb]. destruct (N.eqb ch 48) eqn:E.
    + now rewrite andb_false_r.
    + rewrite E. now rewrite andb_false_r.
  - rewrite (bool_decide_eq_false_2 (j ∈ [i])) by (rewrite list_elem_of_singleton; exact Hne).
    cbn [andb]. rewrite (bool_decide_ext (j ∈ i :: idx) (j ∈ idx)); [reflexivity|].
    rewrite elem_of_cons. tauto.
Qed.

(** The whole loop, for any list of in-range indices. *)
Lemma hash_loop_spec idx : forall s,
  Forall (fun i => (i < length s)%nat) idx ->
  fold_left hash_step idx (Ok s) = Ok (subst_at idx s).
Proof.
  induction idx as [|i idx IH]; intros s Hidx; cbn [fold_left].
  - now rewrite subst_at_nil.
  - inversion Hidx as [|? ? Hi Hrest]; subst.
    rewrite hash_step_ok by exact Hi.
    rewrite IH.
    + now rewrite subst_at_cons.
    + rewrite subst_at_length. exact Hrest.
Qed.

Lemma py_range_even_lt n : Forall (fun i => (i < n)%nat) (py_range 0 n 2).
Proof.
  unfold py_range. apply Forall_forall. intros i Hi.
  apply list_elem_of_In, in_map_iff in Hi. destruct Hi as [k [<- Hk]].
  apply in_seq in Hk.
  pose proof (Nat.Div0.mul_div_le (n - 0 + 2 - 1) 2).
  lia.
Qed.

(** The indices visited on a 32-character digest are the even ones up to 30. *)
Lemma py_range_32 j :
  (j < 32)%nat ->
  bool_decide (j ∈ py_range 0 32 2) = Nat.even j && (j <=? 30)%nat.
Proof.
  intros Hj. do 32 (destruct j as [|j]; [reflexivity|]). lia.
Qed.

Lemma hash_password_unfold p :
  hash_password p =
  rbind (Utf8.encode p) (fun encoded =>
    Ok (subst_at (py_range 0 32 2) (MD5.hexdigest encoded))).
Proof.
  unfold hash_password. destruct (Utf8.encode p) as [encoded|e]; simpl; [|reflexivity].
  rewrite hash_loop_spec by apply py_range_even_lt.
  now rewrite hexdigest_length.
Qed.

Lemma encode_char_scalar c :
  Utf8.is_scalar c = true -> exists bs, Utf8.encode_char c = Ok bs.
Proof.
  unfold Utf8.is_scalar, Utf8.encode_char. intros H.
  apply andb_true_iff in H as [Hs Hmax]. apply negb_true_iff in Hs.
  rewrite Hs, Hmax.
  destruct (c <? 128); [eauto|]. destruct (c <? 2048); [eauto|].
  destruct (c <? 65536); eauto.
Qed.

Lemma encode_encodable p : Utf8.encodable p -> exists bs, Utf8.encode p = Ok bs.
Proof.
  induction 1 as [|c s Hc _ IH]; simpl; [eauto|].
  destruct (encode_char_scalar c Hc) as [bs ->]. destruct IH as [rest ->].
  simpl. eauto.
Qed.

(* ===================================================================== *)
(** * The password hasher: theorems *)
(* ===================================================================== *)

Lemma subst_at_32_reference (s : pystr) :
  length s = 32%nat ->
  subst_at (py_range 0 32 2) s =
  imap (fun i ch => if Nat.even i && (i <=? 30)%nat && N.eqb ch 48 then 99 else ch) s.
Proof.
  intros Hlen. apply list_eq; intros j.
  rewrite subst_at_lookup, list_lookup_imap.
  destruct (s !! j) as [ch|] eqn:Hj; [|reflexivity].
  cbn [fmap option_fmap option_map].
  apply lookup_lt_Some in Hj. rewrite Hlen in Hj.
  now rewrite py_range_32.
Qed.

(** C2. For every string [p], [hash_password p] equals the reference
    definition (the MD5 hex digest of the UTF-8 encoding of [p] in which
    every '0' at an even index 0, 2, ..., 30 is replaced by 'c'); both
    raise the same error when [p] has no UTF-8 encoding.  On the literal
    "password" both yield 5f4dcc3b5aa765d61d8327deb882cf99. *)
Theorem hash_password_refines_reference :
  (forall p : pystr, hash_password p = hash_reference p)
  /\ hash_password (py "password") = Ok (py "5f4dcc3b5aa765d61d8327deb882cf99")
  /\ hash_reference (py "password") = Ok (py "5f4dcc3b5aa765d61d8327deb882cf99").
Proof.
  split; [|split].
  - intros p. rewrite hash_password_unfold. unfold hash_reference.
    destruct (Utf8.encode p) as [encoded|e]; [|reflexivity].
    unfold rbind. f_equal. apply subst_at_32_reference, hexdigest_length.
  - vm_compute. reflexivity.
  - vm_compute. reflexivity.
Qed.

Lemma subst_at_lower idx s :
  Forall (fun c => is_lower_hex c = true) s ->
  Forall (fun c => is_lower_hex c = true) (subst_at idx s).
Proof.
  intros Hs. apply Forall_lookup. intros j c Hc.
  rewrite subst_at_lookup in Hc.
  destruct (s !! j) as [ch|] eqn:Hj; [|discriminate].
  cbn [fmap option_fmap option_map] in Hc. injection Hc as <-.
  destruct (bool_decide (j ∈ idx) && N.eqb ch 48); [reflexivity|].
  exact (Forall_lookup_1 _ _ _ _ Hs Hj).
Qed.

Lemma subst_at_no_zero s i :
  Nat.even i = true -> (i <= 30)%nat ->
  subst_at (py_range 0 32 2) s !! i <> Some 48.
Proof.
  intros Hev Hle. rewrite subst_at_lookup.
  destruct (s !! i) as [ch|]; [|discriminate].
  cbn [fmap option_fmap option_map].
  rewrite py_range_32 by lia.
  rewrite Hev. replace (i <=? 30)%nat with true by (symmetry; apply Nat.leb_le; exact Hle).
  cbn [andb]. destruct (N.eqb ch 48) eqn:E; [discriminate|].
  intros [= ->]. discriminate.
Qed.

(** C3, amended. For every string [p] that has a UTF-8 encoding (no lone
    surrogate code point), [hash_password p] returns a 32-character
    lowercase hexadecimal string with no '0' at any even index
    0, 2, ..., 30; and the function is deterministic. *)
Theorem hash_password_digest (p : pystr) :
  Utf8.encodable p ->
  (exists h, hash_password p = Ok h /\ growatt_digest h)
  /\ (forall q, q = p -> hash_password q = hash_password p).
Proof.
  intros Hp. split.
  - destruct (encode_encodable p Hp) as [encoded Henc].
    rewrite hash_password_unfold, Henc. unfold rbind.
    eexists. split; [reflexivity|]. split; [|split].
    + rewrite subst_at_length. apply hexdigest_length.
    + apply subst_at_lower, hexdigest_lower.
    + intros i. apply subst_at_no_zero.
  - intros q ->. reflexivity.
Qed.


(* ===================================================================== *)
(** * Date strings *)
(* ===================================================================== *)

Lemma checked_below (P : N -> bool) (bound : nat) n :
  forallb (fun k => P (N.of_nat k)) (seq 0 bound) = true ->
  n < N.of_nat bound -> P n = true.
Proof.
  intros Hall Hn. rewrite forallb_forall in Hall.
  rewrite <- (N2Nat.id n). apply Hall, in_seq. lia.
Qed.

Lemma decimal_four_digits n : 1000 <= n <= 9999 -> digits_ok 4 (decimal n) = true.
Proof.
  intros Hn.
  replace n with (1000 + (n - 1000)) by lia.
  apply (checked_below (fun k => digits_ok 4 (decimal (1000 + k))) (90 * 100));
    [vm_compute; reflexivity | lia].
Qed.

Lemma zfill_two_digits n : n <= 99 -> digits_ok 2 (zfill 2 (decimal n)) = true.
Proof.
  intros Hn.
  apply (checked_below (fun k => digits_ok 2 (zfill 2 (decimal k))) 100);
    [vm_compute; reflexivity | lia].
Qed.

Section ClientFacts.

Context {RT : Runtime}.

Lemma strftime_month d : strftime (py "%Y-%m") d = format_YYYY_MM d.
Proof.
  unfold format_YYYY_MM. change (py "%Y-%m") with [37; 89; 45; 37; 109].
  cbn [strftime N.eqb Pos.eqb]. now rewrite app_nil_r.
Qed.

Lemma strftime_day d : strftime (py "%Y-%m-%d") d = format_YYYY_MM_DD d.
Proof.
  unfold format_YYYY_MM_DD. change (py "%Y-%m-%d") with [37; 89; 45; 37; 109; 45; 37; 100].
  cbn [strftime N.eqb Pos.eqb]. now rewrite app_nil_r.
Qed.

(** On a calendar date with a year of four digits, the two formats have
    the announced widths and separators. *)
Lemma format_widths d :
  1000 <= year d <= 9999 -> month d <= 12 -> day d <= 31 ->
  length (format_YYYY_MM d) = 7%nat /\ length (format_YYYY_MM_DD d) = 10%nat
  /\ format_YYYY_MM d !! 4%nat = Some 45
  /\ format_YYYY_MM_DD d !! 4%nat = Some 45
  /\ format_YYYY_MM_DD d !! 7%nat = Some 45.
Proof.
  intros Hy Hm Hd.
  pose proof (decimal_four_digits (year d) Hy) as Y.
  rewrite <- (strftime_Y_four_digits (year d) Hy) in Y.
  pose proof (zfill_two_digits (month d) ltac:(lia)) as Mo.
  pose proof (zfill_two_digits (day d) ltac:(lia)) as D.
  unfold digits_ok in *.
  apply andb_true_iff in Y as [Y _], Mo as [Mo _], D as [D _].
  apply Nat.eqb_eq in Y, Mo, D.
  unfold format_YYYY_MM, format_YYYY_MM_DD.
  change (py "-") with [45].
  rewrite !length_app, Y, Mo, D. cbn [length].
  repeat split; try reflexivity.
  - rewrite lookup_app_r by lia. rewrite Y. reflexivity.
  - rewrite lookup_app_r by lia. rewrite Y. reflexivity.
  - rewrite lookup_app_r by lia. rewrite Y.
    change (7 - 4)%nat with 3%nat. change ([45] ++ ?l) with (45 :: l).
    rewrite lookup_cons_ne_0 by lia. change (Nat.pred 3) with 2%nat.
    rewrite lookup_app_r by lia. rewrite Mo. reflexivity.
Qed.

(** [get_date_string] never fails and leaves the world as it is. *)
Lemma get_date_string_run ts date (w : World) :
  get_date_string ts date w =
  (w, Ok (let d := match date with
                   | Some d => d
                   | None => {| year := year (clock w); month := month (clock w);
                                day := day (clock w);
                                time_of_day := Some (default (0, 0, 0, 0)
                                                       (time_of_day (clock w))) |}
                   end in
          match ts with
          | Some Timespan.month => format_YYYY_MM d
          | _ => format_YYYY_MM_DD d
          end)).
Proof.
  unfold get_date_string, bind, ret, datetime_now.
  rewrite <- strftime_month, <- strftime_day.
  destruct ts as [[| |]|], date as [d|]; reflexivity.
Qed.

(** C4. For every timespan among hour, day, month and unspecified, and
    every supplied date, the date string is the date as YYYY-MM when the
    timespan is month and as YYYY-MM-DD otherwise; for 2024-03-15 it is
    "2024-03" for month and "2024-03-15" for day or unspecified. *)
Theorem get_date_string_format :
  (forall (ts : option Timespan.t) (d : pydate) (w : World),
     get_date_string ts (Some d) w =
     (w, Ok (match ts with
             | Some Timespan.month => format_YYYY_MM d
             | Some Timespan.hour | Some Timespan.day | None => format_YYYY_MM_DD d
             end)))
  /\ (forall (w : World) tod,
        let d := {| year := 2024; month := 3; day := 15; time_of_day := tod |} in
        get_date_string (Some Timespan.month) (Some d) w = (w, Ok (py "2024-03"))
        /\ get_date_string (Some Timespan.day) (Some d) w = (w, Ok (py "2024-03-15"))
        /\ get_date_string None (Some d) w = (w, Ok (py "2024-03-15"))).
Proof.
  split.
  - intros ts d w. rewrite get_date_string_run. destruct ts as [[| |]|]; reflexivity.
  - intros w tod d. rewrite !get_date_string_run.
    unfold format_YYYY_MM, format_YYYY_MM_DD. cbn [year month day d].
    rewrite (strftime_Y_four_digits 2024) by lia. repeat split.
Qed.

(* ===================================================================== *)
(** * The client: what an operation does with the answer it receives *)
(* ===================================================================== *)

Lemma snoc_eq_inv {A} (l : list A) (a b : A) : l ++ [a] = l ++ [b] -> a = b.
Proof. intros H. apply app_inv_head in H. now injection H. Qed.

Lemma snoc_neq {A} (l : list A) (a : A) : l <> l ++ [a].
Proof.
  intros H. apply (f_equal length) in H. rewrite length_app in H. cbn in H. lia.
Qed.

Ltac unfold_client :=
  unfold login, plant_list, new_plant_list, plant_detail, inverter_data,
    inverter_detail, inverter_detail_two, tlx_data, tlx_detail, mix_info,
    mix_totals, mix_system_status, mix_detail, dashboard_data, storage_detail,
    storage_params, storage_energy_overview, inverter_list, device_list,
    plant_info, get_plant_settings in *;
  unfold bind, lift, ret, raise, session_get, session_post, session_request,
    warnings_warn, date_today in *;
  rewrite ?get_date_string_run in *.

(** Performing the request [req] in the world [w]. *)
Lemma session_request_run req (w : World) :
  session_request req w =
  ({| wire := (transport req (wire w)).1;
      exchanged := exchanged w ++ [(req, (transport req (wire w)).2)];
      warned := warned w; clock := clock w |},
   match (transport req (wire w)).2 with
   | Some content => Ok content
   | None => Raise RequestException
   end).
Proof. unfold session_request. now destruct (transport req (wire w)). Qed.

Ltac case_step :=
  match goal with
  | |- context [get_date_string ?a ?b ?w] => rewrite (get_date_string_run a b w)
  | |- context [transport ?r ?q] => destruct (transport r q) as [? [?|]]
  | |- context [match hash_password ?s with _ => _ end] => destruct (hash_password s) eqn:?
  | |- context [match decode_json ?c with _ => _ end] => destruct (decode_json c) eqn:?
  | |- context [match getitem ?b ?k with _ => _ end] => destruct (getitem b k) eqn:?
  | |- context [if truthy ?s then _ else _] => destruct (truthy s) eqn:?
  | |- context [if negb ?b then _ else _] => is_var b; destruct b
  | |- context [match ?d with Some _ => _ | None => _ end] => is_var d; destruct d
  | |- context [match ?v with JDict _ => _ | _ => _ end] => is_var v; destruct v
  end; cbn [negb fst snd exchanged].

(** An operation that received the body [content] returns what its
    post-processing makes of the decoded body. *)
Lemma call_answered self c (w : World) content :
  answered w (call self c w).1 content ->
  (call self c w).2 = rbind (decode_json content) (post c).
Proof.
  intros [req Hreq]; revert Hreq.
  destruct c; cbn [call]; unfold_client; repeat case_step; intros Hreq.
  all: try (exfalso; exact (snoc_neq _ _ Hreq)).
  all: apply snoc_eq_inv in Hreq; try discriminate Hreq.
  all: injection Hreq as _ ->.
  all: unfold post, login_post, rbind; cbn [spec_unwrap_field].
  all: repeat match goal with H : ?x = _ |- context [?x] => rewrite H end.
  all: try reflexivity.
  all: cbn [getitem] in *; try discriminate.
  all: now destruct (decode_json content).
Qed.

Lemma decode_json_undecodable content :
  bytes_decode content = None -> decode_json content = Raise UnicodeDecodeError.
Proof. intros H. unfold decode_json. now rewrite H. Qed.

Lemma decode_json_not_json content text :
  bytes_decode content = Some text -> json_loads text = None ->
  decode_json content = Raise JSONDecodeError.
Proof. intros H1 H2. unfold decode_json. now rewrite H1, H2. Qed.

Lemma decode_json_value content text body :
  bytes_decode content = Some text -> json_loads text = Some body ->
  decode_json content = Ok body.
Proof. intros H1 H2. unfold decode_json. now rewrite H1, H2. Qed.

(** Subscripting a value that is not an object holding the key. *)
Lemma getitem_missing body field :
  (forall d, body = JDict d -> d !! field = None) ->
  getitem body field =
  Raise (match body with JDict _ => KeyError field | _ => TypeError end).
Proof.
  intros Hmissing. destruct body; cbn [getitem]; try reflexivity.
  now rewrite (Hmissing d eq_refl).
Qed.

Lemma getitem_ok v k x :
  getitem v k = Ok x <-> exists d, v = JDict d /\ d !! k = Some x.
Proof.
  split.
  - destruct v; cbn [getitem]; try discriminate.
    destruct (d !! k) eqn:E; [|discriminate]. intros [= <-]. eauto.
  - intros [d [-> Hk]]. cbn [getitem]. now rewrite Hk.
Qed.

(* ===================================================================== *)
(** * [login] *)
(* ===================================================================== *)

(** C5. When the decoded envelope has [success] equal to true, the result
    of [login] holds every field of the [back] envelope, with [userId] set
    to user.parentUserId and [userLevel] set to user.rightlevel. *)
Theorem login_success_adds_user_fields
    self username password hashed (w : World) content body d user user_id user_level :
  answered w (login self username password hashed w).1 content ->
  decode_json content = Ok body ->
  getitem body (py "back") = Ok (JDict d) ->
  d !! py "success" = Some (JBool true) ->
  d !! py "user" = Some user ->
  getitem user (py "parentUserId") = Ok user_id ->
  getitem user (py "rightlevel") = Ok user_level ->
  exists r,
    (login self username password hashed w).2 = Ok (JDict r)
    /\ r !! py "userId" = Some user_id
    /\ r !! py "userLevel" = Some user_level
    /\ (forall k, k <> py "userId" -> k <> py "userLevel" -> r !! k = d !! k)
    /\ (forall k, is_Some (d !! k) -> is_Some (r !! k)).
Proof.
  intros Hans Hdec Hback Hsucc Huser Hid Hlevel.
  pose proof (call_answered self (Login username password hashed) w content Hans) as Hrun.
  cbn [call] in Hrun. rewrite Hrun, Hdec.
  unfold post, login_post, rbind. rewrite Hback. cbn [getitem].
  rewrite Hsucc, Huser. cbn [truthy]. rewrite Hid, Hlevel.
  eexists. split; [reflexivity|]. repeat split.
  - rewrite lookup_insert_ne by discriminate. apply lookup_insert_eq.
  - apply lookup_insert_eq.
  - intros k H1 H2. rewrite !lookup_insert_ne by congruence. reflexivity.
  - intros k Hk. rewrite !lookup_insert_is_Some'. tauto.
Qed.

(** C10. When the decoded envelope has a falsy [success], [login] returns
    the decoded [back] mapping as it is: it raises nothing and adds
    neither [userId] nor [userLevel]. *)
Theorem login_falsy_success_returns_back
    self username password hashed (w : World) content body data success :
  answered w (login self username password hashed w).1 content ->
  decode_json content = Ok body ->
  getitem body (py "back") = Ok data ->
  getitem data (py "success") = Ok success ->
  truthy success = false ->
  (login self username password hashed w).2 = Ok data.
Proof.
  intros Hans Hdec Hback Hsucc Hfalsy.
  pose proof (call_answered self (Login username password hashed) w content Hans) as Hrun.
  cbn [call] in Hrun. rewrite Hrun, Hdec.
  unfold post, login_post, rbind. now rewrite Hback, Hsucc, Hfalsy.
Qed.

(** C1, amended. When the decoded envelope has [success] equal to false,
    [login] raises no error: it returns the [back] mapping, which carries
    the server's payload. *)
Theorem login_success_false_returns_normally
    self username password hashed (w : World) content body data :
  answered w (login self username password hashed w).1 content ->
  decode_json content = Ok body ->
  getitem body (py "back") = Ok data ->
  getitem data (py "success") = Ok (JBool false) ->
  (login self username password hashed w).2 = Ok data
  /\ forall e, (login self username password hashed w).2 <> Raise e.
Proof.
  intros Hans Hdec Hback Hsucc.
  assert (Hres : (login self username password hashed w).2 = Ok data).
  { pose proof (call_answered self (Login username password hashed) w content Hans) as Hrun.
    cbn [call] in Hrun. rewrite Hrun, Hdec.
    unfold post, login_post, rbind. now rewrite Hback, Hsucc. }
  split; [exact Hres|]. intros e. rewrite Hres. discriminate.
Qed.

(** The request [login] builds for the password string [sent]. *)
Lemma login_exchange self username (password : pystr) (hashed : bool) (w : World) sent :
  (if hashed then Ok password else hash_password password) = Ok sent ->
  exists answer,
    exchanged (login self username password hashed w).1 =
    exchanged w ++
      [({| method := POST;
           url := get_url self (py "newTwoLoginAPI.do");
           params := [];
           data := [(py "userName", PStr username);
                    (py "password", PStr sent);
                    (py "NewLogin", PInt 1)];
           allow_redirects := true |}, answer)].
Proof.
  intros Hsent. destruct hashed.
  - injection Hsent as <-. unfold_client. cbn [negb]. repeat case_step; eauto.
  - unfold_client. cbn [negb]. rewrite Hsent. repeat case_step; eauto.
Qed.

(** C9. [login] sends as the [password] parameter the hash of the supplied
    password when the already-hashed flag is false, and the supplied
    string itself, whatever it is, when the flag is true. *)
Theorem login_password_parameter self username password (w : World) :
  (forall h, hash_password password = Ok h ->
     exists req answer,
       exchanged (login self username password false w).1 = exchanged w ++ [(req, answer)]
       /\ method req = POST
       /\ url req = get_url self (py "newTwoLoginAPI.do")
       /\ data req = [(py "userName", PStr username);
                      (py "password", PStr h);
                      (py "NewLogin", PInt 1)])
  /\ (exists req answer,
       exchanged (login self username password true w).1 = exchanged w ++ [(req, answer)]
       /\ method req = POST
       /\ url req = get_url self (py "newTwoLoginAPI.do")
       /\ data req = [(py "userName", PStr username);
                      (py "password", PStr password);
                      (py "NewLogin", PInt 1)]).
Proof.
  split.
  - intros h Hh.
    destruct (login_exchange self username password false w h Hh) as [answer Hex].
    eexists _, answer. split; [exact Hex|]. repeat split.
  - destruct (login_exchange self username password true w password eq_refl) as [answer Hex].
    eexists _, answer. split; [exact Hex|]. repeat split.
Qed.

(** Without a hash to send, [login] raises before any exchange. *)
Lemma login_unhashable self username password (w : World) e :
  hash_password password = Raise e ->
  login self username password false w = (w, Raise e).
Proof. intros H. unfold_client. cbn [negb]. now rewrite H. Qed.

(* ===================================================================== *)
(** * Unwrapping and failures, for every operation *)
(* ===================================================================== *)

(** C6, amended. Every tabulated operation other than [login], answered
    with a body that decodes to an object holding the operation's unwrap
    field, returns the value stored under that field; an operation marked
    "whole body" returns the decoded body. *)
Theorem call_returns_unwrap_field self c (w : World) content body :
  is_login c = false ->
  answered w (call self c w).1 content ->
  decode_json content = Ok body ->
  match spec_unwrap_field c with
  | Some field =>
      forall d v, body = JDict d -> d !! field = Some v -> (call self c w).2 = Ok v
  | None => (call self c w).2 = Ok body
  end.
Proof.
  intros Hc Hans Hdec.
  rewrite (call_answered self c w content Hans), Hdec. unfold rbind.
  destruct c; try discriminate Hc; cbn [post spec_unwrap_field]; try reflexivity.
  all: intros d v -> Hv; cbn [getitem]; now rewrite Hv.
Qed.

(** C7. Every operation answered with a body that is not valid JSON (bytes
    that are not UTF-8, or a text that [json.loads] refuses) fails with the
    decoding error, and every operation answered with valid JSON that is
    not an object holding the operation's unwrap field fails with the
    lookup error (KeyError on an object without the field, TypeError on
    any other value): no partial or null result is returned. *)
Theorem call_fails_on_bad_body self c (w : World) content :
  answered w (call self c w).1 content ->
  (bytes_decode content = None ->
     (call self c w).2 = Raise UnicodeDecodeError
     /\ is_decode_error UnicodeDecodeError = true)
  /\ (forall text,
        bytes_decode content = Some text ->
        json_loads text = None ->
        (call self c w).2 = Raise JSONDecodeError
        /\ is_decode_error JSONDecodeError = true)
  /\ (forall text body field,
        bytes_decode content = Some text ->
        json_loads text = Some body ->
        spec_unwrap_field c = Some field ->
        (forall d, body = JDict d -> d !! field = None) ->
        let e := match body with JDict _ => KeyError field | _ => TypeError end in
        (call self c w).2 = Raise e /\ is_shape_error e = true).
Proof.
  intros Hans. rewrite (call_answered self c w content Hans). split; [|split].
  - intros Hbytes. rewrite (decode_json_undecodable content Hbytes). now split.
  - intros text Hbytes Htext. rewrite (decode_json_not_json content text Hbytes Htext).
    now split.
  - intros text body field Hbytes Htext Hfield Hmissing e.
    rewrite (decode_json_value content text body Hbytes Htext). unfold rbind.
    pose proof (getitem_missing body field Hmissing) as Hget. fold e in Hget.
    split; [|subst e; now destruct body].
    destruct c; cbn [post spec_unwrap_field] in *; try discriminate Hfield.
    all: injection Hfield as <-.
    all: try exact Hget.
    unfold login_post, rbind. now rewrite Hget.
Qed.

(* ===================================================================== *)
(** * [device_list] and its deprecated alias *)
(* ===================================================================== *)

Lemma device_list_run self plant_id (w : World) :
  device_list self plant_id w =
  ((plant_info self plant_id w).1,
   rbind (plant_info self plant_id w).2 (fun info => getitem info (py "deviceList"))).
Proof.
  unfold device_list, bind, lift.
  destruct (plant_info self plant_id w) as [w' [info|e]]; reflexivity.
Qed.

Lemma plant_info_ignores_warnings self plant_id (w : World) ws :
  let w0 := {| wire := wire w; exchanged := exchanged w; warned := ws; clock := clock w |} in
  (plant_info self plant_id w0).2 = (plant_info self plant_id w).2
  /\ warned (plant_info self plant_id w0).1 = ws
  /\ exchanged (plant_info self plant_id w0).1 = exchanged (plant_info self plant_id w).1
  /\ wire (plant_info self plant_id w0).1 = wire (plant_info self plant_id w).1.
Proof.
  unfold_client. cbn [wire exchanged warned clock].
  destruct (transport _ (wire w)) as [wire' [content|]]; cbn [fst snd].
  - destruct (decode_json content); repeat split.
  - repeat split.
Qed.

(** C8. [device_list] returns the [deviceList] field of what [plant_info]
    returns, and the deprecated alias [inverter_list] returns the same
    result after issuing one deprecation warning. *)
Theorem device_list_and_alias self plant_id (w : World) :
  (forall info devices,
     (plant_info self plant_id w).2 = Ok info ->
     getitem info (py "deviceList") = Ok devices ->
     (device_list self plant_id w).2 = Ok devices
     /\ (inverter_list self plant_id w).2 = Ok devices)
  /\ (inverter_list self plant_id w).2 = (device_list self plant_id w).2
  /\ warned (inverter_list self plant_id w).1 =
     warned w ++ [(DeprecationWarning, deprecation_message)]
  /\ warned (device_list self plant_id w).1 = warned w
  /\ exchanged (inverter_list self plant_id w).1 = exchanged (device_list self plant_id w).1.
Proof.
  pose proof (plant_info_ignores_warnings self plant_id w
                (warned w ++ [(DeprecationWarning, deprecation_message)]))
    as (Hres & Hwarn & Hex & _).
  assert (Halias : inverter_list self plant_id w =
                   device_list self plant_id
                     {| wire := wire w; exchanged := exchanged w;
                        warned := warned w ++ [(DeprecationWarning, deprecation_message)];
                        clock := clock w |}) by reflexivity.
  assert (Hsame : (inverter_list self plant_id w).2 = (device_list self plant_id w).2).
  { rewrite Halias, !device_list_run. cbn [snd]. now rewrite Hres. }
  split; [|split; [exact Hsame|split; [|split]]].
  - intros info devices Hinfo Hdev. rewrite Hsame, device_list_run. cbn [snd].
    rewrite Hinfo. cbn [rbind]. now rewrite Hdev.
  - rewrite Halias, device_list_run. cbn [fst]. exact Hwarn.
  - rewrite device_list_run. cbn [fst].
    destruct w as [q ex ws c].
    pose proof (plant_info_ignores_warnings self plant_id
                  {| wire := q; exchanged := ex; warned := ws; clock := c |} ws) as (_ & H & _).
    exact H.
  - rewrite Halias, !device_list_run. cbn [fst]. exact Hex.
Qed.

End ClientFacts.

(* ===================================================================== *)
(** * The theorems on the mocked transport *)
(* ===================================================================== *)

Lemma hash_password_digest_witness :
  Utf8.encodable (py "password")
  /\ ((exists h, hash_password (py "password") = Ok h /\ growatt_digest h)
      /\ (forall q, q = py "password" -> hash_password q = hash_password (py "password"))).
Proof.
  split; [repeat constructor | apply (hash_password_digest (py "password")); repeat constructor].
Defined.

(** C3 as stated fails: a string holding a lone surrogate is refused by
    the UTF-8 encoder, so the hasher raises instead of returning a digest. *)
Lemma hash_password_surrogate_raises :
  hash_password [0xD800] = Raise UnicodeEncodeError
  /\ ~ (exists h, hash_password [0xD800] = Ok h /\ growatt_digest h).
Proof.
  split; [reflexivity|]. intros [h [Hh _]]. discriminate Hh.
Qed.

(** The payload of the specification: [userId] is "7" and [userLevel] is "1". *)
Lemma login_success_adds_user_fields_witness :
  let w := Fixture.world [Fixture.login_ok_body] in
  exists r,
    (login default_api (py "user") (py "password") false w).2 = Ok (JDict r)
    /\ r !! py "userId" = Some (JStr (py "7"))
    /\ r !! py "userLevel" = Some (JStr (py "1"))
    /\ (forall k, k <> py "userId" -> k <> py "userLevel" ->
          r !! k = ({[ py "success" := JBool true;
                       py "user" := JDict {[ py "parentUserId" := JStr (py "7");
                                             py "rightlevel" := JStr (py "1") ]} ]}
                    : gmap pystr json) !! k)
    /\ (forall k, is_Some (({[ py "success" := JBool true;
                              py "user" := JDict {[ py "parentUserId" := JStr (py "7");
                                                    py "rightlevel" := JStr (py "1") ]} ]}
                           : gmap pystr json) !! k) -> is_Some (r !! k)).
Proof.
  intros w.
  apply (login_success_adds_user_fields default_api (py "user") (py "password") false w
           Fixture.login_ok_body
           (JDict {[ py "back" :=
                       JDict {[ py "success" := JBool true;
                                py "user" := JDict {[ py "parentUserId" := JStr (py "7");
                                                      py "rightlevel" := JStr (py "1") ]} ]} ]})
           _
           (JDict {[ py "parentUserId" := JStr (py "7"); py "rightlevel" := JStr (py "1") ]})).
  - eexists. vm_compute. reflexivity.
  - vm_compute. reflexivity.
  - vm_compute. reflexivity.
  - vm_compute. reflexivity.
  - vm_compute. reflexivity.
  - vm_compute. reflexivity.
  - vm_compute. reflexivity.
Defined.

Lemma login_falsy_success_returns_back_witness :
  let w := Fixture.world [Fixture.login_rejected_body] in
  (login default_api (py "user") (py "password") false w).2 =
  Ok (JDict {[ py "success" := JBool false; py "msg" := JStr (py "501") ]}).
Proof.
  intros w.
  apply (login_falsy_success_returns_back default_api (py "user") (py "password") false w
           Fixture.login_rejected_body
           (JDict {[ py "back" :=
                       JDict {[ py "success" := JBool false; py "msg" := JStr (py "501") ]} ]})
           _ (JBool false)).
  - eexists. vm_compute. reflexivity.
  - vm_compute. reflexivity.
  - vm_compute. reflexivity.
  - vm_compute. reflexivity.
  - reflexivity.
Defined.

Lemma login_success_false_returns_normally_witness :
  let w := Fixture.world [Fixture.login_rejected_body] in
  let run := login default_api (py "user") (py "5f4dcc3b5aa765d61d8327deb882cf99") true w in
  run.2 = Ok (JDict {[ py "success" := JBool false; py "msg" := JStr (py "501") ]})
  /\ forall e, run.2 <> Raise e.
Proof.
  intros w run.
  apply (login_success_false_returns_normally default_api (py "user")
           (py "5f4dcc3b5aa765d61d8327deb882cf99") true w
           Fixture.login_rejected_body
           (JDict {[ py "back" :=
                       JDict {[ py "success" := JBool false; py "msg" := JStr (py "501") ]} ]})).
  - eexists. vm_compute. reflexivity.
  - vm_compute. reflexivity.
  - vm_compute. reflexivity.
  - vm_compute. reflexivity.
Defined.

(** C1 as stated fails: answered with [success] equal to false, [login]
    returns normally and raises nothing. *)
Lemma login_rejected_does_not_raise :
  let w := Fixture.world [Fixture.login_rejected_body] in
  let run := login default_api (py "user") (py "password") false w in
  answered w run.1 Fixture.login_rejected_body
  /\ rbind (decode_json Fixture.login_rejected_body) (fun body =>
     rbind (getitem body (py "back")) (fun data => getitem data (py "success")))
     = Ok (JBool false)
  /\ is_ok run.2 = true
  /\ ~ (exists e, run.2 = Raise e).
Proof.
  intros w run. split; [|split; [|split]].
  - eexists. vm_compute. reflexivity.
  - vm_compute. reflexivity.
  - vm_compute. reflexivity.
  - intros [e He]. vm_compute in He. discriminate He.
Qed.

Lemma login_password_parameter_witness :
  let w := Fixture.world [Fixture.login_ok_body] in
  (exists req answer,
     exchanged (login default_api (py "user") (py "password") false w).1 =
     exchanged w ++ [(req, answer)]
     /\ method req = POST
     /\ url req = get_url default_api (py "newTwoLoginAPI.do")
     /\ data req = [(py "userName", PStr (py "user"));
                    (py "password", PStr (py "5f4dcc3b5aa765d61d8327deb882cf99"));
                    (py "NewLogin", PInt 1)])
  /\ (exists req answer,
       exchanged (login default_api (py "user") (py "0abc") true w).1 =
       exchanged w ++ [(req, answer)]
       /\ method req = POST
       /\ url req = get_url default_api (py "newTwoLoginAPI.do")
       /\ data req = [(py "userName", PStr (py "user"));
                      (py "password", PStr (py "0abc"));
                      (py "NewLogin", PInt 1)]).
Proof.
  intros w. split.
  - apply (login_password_parameter default_api (py "user") (py "password") w).
    vm_compute. reflexivity.
  - apply (login_password_parameter default_api (py "user") (py "0abc") w).
Defined.

Lemma call_returns_unwrap_field_witness :
  let w := Fixture.world [Fixture.mix_body] in
  (call default_api (MixTotals (py "MIX1") (py "42")) w).2 =
  Ok (JDict {[ py "soc" := JInt 80 ]}).
Proof.
  intros w.
  assert (Hans : answered w (call default_api (MixTotals (py "MIX1") (py "42")) w).1
                   Fixture.mix_body) by (eexists; vm_compute; reflexivity).
  assert (Hdec : decode_json Fixture.mix_body =
                 Ok (JDict {[ py "result" := JInt 1;
                              py "obj" := JDict {[ py "soc" := JInt 80 ]} ]}))
    by (vm_compute; reflexivity).
  pose proof (call_returns_unwrap_field default_api (MixTotals (py "MIX1") (py "42")) w
                Fixture.mix_body _ eq_refl Hans Hdec) as H.
  cbn [spec_unwrap_field] in H.
  apply (H _ _ eq_refl). vm_compute. reflexivity.
Defined.

(** C6 as stated fails on [login]: with [success] true the result is not
    the object stored under [back], it has two more fields. *)
Lemma login_is_not_plain_unwrap :
  let w := Fixture.world [Fixture.login_ok_body] in
  let c := Login (py "user") (py "password") false in
  spec_unwrap_field c = Some (py "back")
  /\ exists content body v,
       answered w (call default_api c w).1 content
       /\ decode_json content = Ok body
       /\ getitem body (py "back") = Ok v
       /\ (call default_api c w).2 <> Ok v.
Proof.
  intros w c. split; [reflexivity|].
  exists Fixture.login_ok_body. eexists. eexists.
  split; [eexists; vm_compute; reflexivity|].
  split; [vm_compute; reflexivity|].
  split; [vm_compute; reflexivity|].
  intros H.
  apply (f_equal (fun r => match r with
                           | Ok (JDict m) => m !! py "userId"
                           | _ => None
                           end)) in H.
  vm_compute in H. discriminate H.
Qed.

Lemma call_fails_on_bad_body_witness :
  (call default_api (GetPlantSettings (py "42")) (Fixture.world [latin1_body])).2
    = Raise UnicodeDecodeError
  /\ (call default_api (PlantList (py "7")) (Fixture.world [Fixture.html_body])).2
    = Raise JSONDecodeError
  /\ (call default_api (Login (py "user") (py "password") false)
        (Fixture.world [Fixture.no_back_body])).2
    = Raise (KeyError (py "back"))
  /\ (call default_api (DeviceList (py "42")) (Fixture.world [Fixture.mix_body])).2
    = Raise (KeyError (py "deviceList"))
  /\ (call default_api (MixTotals (py "MIX1") (py "42")) (Fixture.world [array_body])).2
    = Raise TypeError.
Proof.
  split; [|split; [|split; [|split]]].
  - refine (proj1 (proj1 (call_fails_on_bad_body default_api (GetPlantSettings (py "42"))
                            (Fixture.world [latin1_body]) latin1_body _) _)).
    + eexists. vm_compute. reflexivity.
    + vm_compute. reflexivity.
  - refine (proj1 (proj1 (proj2 (call_fails_on_bad_body default_api (PlantList (py "7"))
                            (Fixture.world [Fixture.html_body]) Fixture.html_body _))
                     (map Byte.to_N Fixture.html_body) _ _)).
    + eexists. vm_compute. reflexivity.
    + vm_compute. reflexivity.
    + vm_compute. reflexivity.
  - refine (proj1 (proj2 (proj2 (call_fails_on_bad_body default_api
                            (Login (py "user") (py "password") false)
                            (Fixture.world [Fixture.no_back_body]) Fixture.no_back_body _))
                     (map Byte.to_N Fixture.no_back_body)
                     (JDict {[ py "error" := JStr (py "no session") ]})
                     (py "back") _ _ eq_refl _)).
    + eexists. vm_compute. reflexivity.
    + vm_compute. reflexivity.
    + vm_compute. reflexivity.
    + intros d [= <-]. vm_compute. reflexivity.
  - refine (proj1 (proj2 (proj2 (call_fails_on_bad_body default_api (DeviceList (py "42"))
                            (Fixture.world [Fixture.mix_body]) Fixture.mix_body _))
                     (map Byte.to_N Fixture.mix_body)
                     (JDict {[ py "result" := JInt 1;
                               py "obj" := JDict {[ py "soc" := JInt 80 ]} ]})
                     (py "deviceList") _ _ eq_refl _)).
    + eexists. vm_compute. reflexivity.
    + vm_compute. reflexivity.
    + vm_compute. reflexivity.
    + intros d [= <-]. vm_compute. reflexivity.
  - refine (proj1 (proj2 (proj2 (call_fails_on_bad_body default_api
                            (MixTotals (py "MIX1") (py "42"))
                            (Fixture.world [array_body]) array_body _))
                     (map Byte.to_N array_body)
                     (JList [JInt 1; JInt 2])
                     (py "obj") _ _ eq_refl _)).
    + eexists. vm_compute. reflexivity.
    + vm_compute. reflexivity.
    + vm_compute. reflexivity.
    + intros d Hd. discriminate Hd.
Defined.

Lemma device_list_and_alias_witness :
  let w := Fixture.world [Fixture.plant_info_body] in
  let devices := JList [JDict {[ py "deviceSn" := JStr (py "ABC") ]}] in
  (device_list default_api (py "42") w).2 = Ok devices
  /\ (inverter_list default_api (py "42") w).2 = Ok devices
  /\ warned (inverter_list default_api (py "42") w).1 =
     [(DeprecationWarning, deprecation_message)]
  /\ warned (device_list default_api (py "42") w).1 = [].
Proof.
  intros w devices.
  destruct (device_list_and_alias default_api (py "42") w) as (Hval & _ & Hwarn & Hquiet & _).
  destruct (Hval (JDict {[ py "deviceList" := devices; py "invTodayPpv" := JStr (py "0") ]})
              devices) as [Hd Hi].
  - vm_compute. reflexivity.
  - vm_compute. reflexivity.
  - repeat split; assumption.
Defined.

(* ===================================================================== *)
(** * Further properties of the hasher *)
(* ===================================================================== *)

Lemma encode_char_raises c :
  Utf8.encode_char c = Raise UnicodeEncodeError \/ exists bs, Utf8.encode_char c = Ok bs.
Proof.
  unfold Utf8.encode_char.
  repeat match goal with |- context [if ?b then _ else _] => destruct b end; eauto.
Qed.

Lemma encode_char_ok_scalar c bs : Utf8.encode_char c = Ok bs -> Utf8.is_scalar c = true.
Proof.
  unfold Utf8.encode_char, Utf8.is_scalar, Utf8.is_surrogate.
  destruct (c <? 128) eqn:E1.
  { intros _. apply N.ltb_lt in E1.
    replace (55296 <=? c) with false by (symmetry; apply N.leb_gt; lia).
    apply N.leb_le. lia. }
  destruct (c <? 2048) eqn:E2.
  { intros _. apply N.ltb_lt in E2.
    replace (55296 <=? c) with false by (symmetry; apply N.leb_gt; lia).
    apply N.leb_le. lia. }
  destruct (c <? 65536) eqn:E3.
  { destruct ((55296 <=? c) && (c <=? 57343)); [discriminate|].
    intros _. apply N.ltb_lt in E3. apply N.leb_le. lia. }
  destruct (c <=? 1114111) eqn:E4; [|discriminate].
  intros _. apply N.ltb_ge in E3.
  replace (c <=? 57343) with false by (symmetry; apply N.leb_gt; lia).
  now rewrite andb_false_r.
Qed.

Lemma encode_ok_encodable p bs : Utf8.encode p = Ok bs -> Utf8.encodable p.
Proof.
  revert bs. induction p as [|c p IH]; intros bs; cbn [Utf8.encode].
  - intros _. constructor.
  - destruct (Utf8.encode_char c) as [b|e] eqn:Hc; [|discriminate].
    cbn [rbind]. destruct (Utf8.encode p) as [rest|e]; [|discriminate].
    intros _. constructor; [eapply encode_char_ok_scalar, Hc | eapply IH; reflexivity].
Qed.

Lemma encode_raises p e : Utf8.encode p = Raise e -> e = UnicodeEncodeError.
Proof.
  induction p as [|c p IH]; cbn [Utf8.encode]; [discriminate|].
  destruct (encode_char_raises c) as [-> | [bs ->]]; cbn [rbind].
  - now intros [= <-].
  - destruct (Utf8.encode p) as [rest|e']; [discriminate|].
    intros [= <-]. now apply IH.
Qed.

Lemma hash_password_error p e : hash_password p = Raise e -> e = UnicodeEncodeError.
Proof.
  rewrite hash_password_unfold.
  destruct (Utf8.encode p) as [bs|e'] eqn:Henc; cbn [rbind]; [discriminate|].
  intros [= <-]. exact (encode_raises p e' Henc).
Qed.

(** X1. [hash_password] fails on exactly the strings that hold a code
    point without a UTF-8 encoding, and then with UnicodeEncodeError: the
    indexing of its loop never raises. *)
Theorem hash_password_raises_iff (p : pystr) :
  (forall e, hash_password p = Raise e -> e = UnicodeEncodeError)
  /\ (hash_password p = Raise UnicodeEncodeError <-> ~ Utf8.encodable p)
  /\ ((exists h, hash_password p = Ok h) <-> Utf8.encodable p).
Proof.
  rewrite hash_password_unfold.
  destruct (Utf8.encode p) as [bs|e] eqn:Henc; cbn [rbind].
  - pose proof (encode_ok_encodable p bs Henc) as Hp.
    split; [discriminate|]. split; split; try discriminate; try tauto; eauto.
  - assert (Hnot : ~ Utf8.encodable p).
    { intros Hp. destruct (encode_encodable p Hp) as [bs Hbs]. congruence. }
    pose proof (encode_raises p e Henc) as ->.
    split; [now intros e [= <-]|]. split; split; try tauto.
    intros [h Hh]. discriminate Hh.
Qed.

Lemma le_bytes_bound n x : Forall (fun b => b < 256) (MD5.le_bytes n x).
Proof.
  revert x; induction n as [|n IH]; intros x; cbn [MD5.le_bytes]; constructor.
  - apply N.mod_upper_bound. discriminate.
  - apply IH.
Qed.

Lemma digest_bound msg : Forall (fun b => b < 256) (MD5.digest msg).
Proof.
  unfold MD5.digest. destruct (MD5.final msg) as [[[a b] c] d].
  repeat (apply Forall_app; split); apply le_bytes_bound.
Qed.

(** The first hex digit of a byte is '0' exactly when the byte is below 16. *)
Lemma high_digit_zero b : b < 256 -> N.eqb (MD5.hex_digit (b / 16)) 48 = (b <? 16).
Proof.
  intros Hb. unfold MD5.hex_digit.
  assert (Hq : b / 16 < 16) by (apply N.Div0.div_lt_upper_bound; lia).
  rewrite (N.mod_small _ _ Hq).
  destruct (b <? 16) eqn:E.
  - apply N.ltb_lt in E. rewrite (N.div_small b 16 E). reflexivity.
  - apply N.ltb_ge in E.
    assert (Hpos : 1 <= b / 16) by (apply N.div_le_lower_bound; lia).
    remember (N.to_nat (b / 16)) as k eqn:Hk.
    assert (Hk' : (1 <= k < 16)%nat) by lia. clear - Hk'.
    destruct k as [|k]; [lia|].
    do 15 (destruct k as [|k]; [reflexivity|]). lia.
Qed.

Lemma substitute_bytes (bs : list N) :
  Forall (fun b => b < 256) bs ->
  imap (fun i ch => if Nat.even i && N.eqb ch 48 then 99 else ch) (flat_map MD5.hex_byte bs)
  = flat_map growatt_byte bs.
Proof.
  induction 1 as [|b bs Hb _ IH]; [reflexivity|].
  cbn [flat_map]. unfold MD5.hex_byte at 1. cbn [app].
  rewrite !imap_cons. cbn [Nat.even andb compose].
  rewrite (imap_ext _ (fun i ch => if Nat.even i && N.eqb ch 48 then 99 else ch))
    by (intros i x _; reflexivity).
  rewrite IH. unfold growatt_byte at 2, MD5.hex_byte.
  rewrite (high_digit_zero b Hb).
  destruct (b <? 16) eqn:E; [|reflexivity].
  apply N.ltb_lt in E. reflexivity.
Qed.

Lemma reference_without_bound (s : pystr) :
  length s = 32%nat ->
  imap (fun i ch => if Nat.even i && (i <=? 30)%nat && N.eqb ch 48 then 99 else ch) s
  = imap (fun i ch => if Nat.even i && N.eqb ch 48 then 99 else ch) s.
Proof.
  intros Hlen. apply imap_ext. intros i x Hi.
  apply lookup_lt_Some in Hi. rewrite Hlen in Hi.
  destruct (Nat.even i) eqn:Hev; [|reflexivity].
  replace (i <=? 30)%nat with true; [reflexivity|].
  symmetry. apply Nat.leb_le.
  destruct (Nat.eq_dec i 31%nat) as [->|]; [discriminate Hev | lia].
Qed.

Lemma digest_substitution encoded :
  subst_at (py_range 0 32 2) (MD5.hexdigest encoded)
  = flat_map growatt_byte (MD5.digest encoded).
Proof.
  rewrite subst_at_32_reference by apply hexdigest_length.
  rewrite reference_without_bound by apply hexdigest_length.
  apply substitute_bytes, digest_bound.
Qed.

(** X2. Byte by byte: [hash_password] writes, for each of the 16 bytes of
    the MD5 digest, 'c' and the low hex digit when the byte is below 16,
    and the two hex digits of the byte otherwise. *)
Theorem hash_password_bytewise (p : pystr) :
  hash_password p =
  rbind (Utf8.encode p) (fun encoded => Ok (flat_map growatt_byte (MD5.digest encoded))).
Proof.
  rewrite hash_password_unfold.
  destruct (Utf8.encode p) as [encoded|e]; [|reflexivity].
  cbn [rbind]. f_equal. apply digest_substitution.
Qed.

Lemma growatt_bytes_plain (bs : list N) :
  flat_map growatt_byte bs = flat_map MD5.hex_byte bs <-> Forall (fun b => 16 <= b) bs.
Proof.
  induction bs as [|b bs IH].
  - split; [constructor | reflexivity].
  - cbn [flat_map]. unfold growatt_byte at 1.
    change (MD5.hex_byte b) with [MD5.hex_digit (b / 16); MD5.hex_digit b].
    destruct (b <? 16) eqn:E.
    + apply N.ltb_lt in E. split.
      * cbn [app]. intros H. exfalso.
        injection H as H _. rewrite (N.div_small b 16 E) in H. discriminate H.
      * intros H. inversion H; subst. lia.
    + apply N.ltb_ge in E. cbn [app]. split.
      * intros H. injection H as H. constructor; [exact E | now apply IH].
      * intros H. inversion H; subst. do 2 f_equal. now apply IH.
Qed.

(** X3. The Growatt hash of a password is its plain MD5 hex digest exactly
    when no byte of the digest is below 16. *)
Theorem hash_password_plain_md5 (p : pystr) encoded :
  Utf8.encode p = Ok encoded ->
  (hash_password p = Ok (MD5.hexdigest encoded)
   <-> Forall (fun b => 16 <= b) (MD5.digest encoded)).
Proof.
  intros Henc. rewrite hash_password_unfold, Henc. cbn [rbind].
  rewrite digest_substitution.
  unfold MD5.hexdigest. rewrite <- growatt_bytes_plain.
  split; [now intros [= ->] | now intros ->].
Qed.

(* ===================================================================== *)
(** * Further properties of the client *)
(* ===================================================================== *)

Section Operations.

Context {RT : Runtime}.

Ltac unfold_ops :=
  unfold login, plant_list, new_plant_list, plant_detail, inverter_data,
    inverter_detail, inverter_detail_two, tlx_data, tlx_detail, mix_info,
    mix_totals, mix_system_status, mix_detail, dashboard_data, storage_detail,
    storage_params, storage_energy_overview, inverter_list, device_list,
    plant_info, get_plant_settings;
  unfold bind, lift, ret, raise, session_get, session_post, session_request,
    warnings_warn, date_today.

Ltac step_op :=
  match goal with
  | |- context [get_date_string ?a ?b ?w] => rewrite (get_date_string_run a b w)
  | |- context [transport ?r ?q] => destruct (transport r q) as [? [?|]]
  | |- context [match hash_password ?s with _ => _ end] => destruct (hash_password s) eqn:?
  | |- context [match decode_json ?c with _ => _ end] => destruct (decode_json c) eqn:?
  | |- context [match getitem ?b ?k with _ => _ end] => destruct (getitem b k) eqn:?
  | |- context [if truthy ?s then _ else _] => destruct (truthy s) eqn:?
  | |- context [if negb ?b then _ else _] => is_var b; destruct b
  | |- context [match ?d with Some _ => _ | None => _ end] => is_var d; destruct d
  | |- context [match ?v with JDict _ => _ | _ => _ end] => is_var v; destruct v
  end; cbn [negb fst snd exchanged warned clock wire].

(** Runs every path of every operation. *)
Ltac run_ops c := destruct c; cbn [call]; unfold_ops; repeat step_op.

(** X4. Logging in with a plain password is logging in with its hash and
    the already-hashed flag: same request, same result, same state. *)
Theorem login_plain_is_login_hashed self username (password h : pystr) (w : World) :
  hash_password password = Ok h ->
  login self username password false w = login self username h true w.
Proof.
  intros Hh. unfold login, bind, lift, ret. cbn [negb]. now rewrite Hh.
Qed.

(** X5. An envelope that announces success without the data [login] reads
    makes it raise the lookup error of the first missing piece
    ([success], [user], [parentUserId], [rightlevel]) and return nothing. *)
Theorem login_raises_on_incomplete_envelope
    self username password hashed (w : World) content body data :
  answered w (login self username password hashed w).1 content ->
  decode_json content = Ok body ->
  getitem body (py "back") = Ok data ->
  (forall e, getitem data (py "success") = Raise e ->
     (login self username password hashed w).2 = Raise e)
  /\ (forall s, getitem data (py "success") = Ok s -> truthy s = true ->
      (forall e, getitem data (py "user") = Raise e ->
         (login self username password hashed w).2 = Raise e)
      /\ (forall user e,
            getitem data (py "user") = Ok user ->
            getitem user (py "parentUserId") = Raise e ->
            (login self username password hashed w).2 = Raise e)
      /\ (forall user user_id e,
            getitem data (py "user") = Ok user ->
            getitem user (py "parentUserId") = Ok user_id ->
            getitem user (py "rightlevel") = Raise e ->
            (login self username password hashed w).2 = Raise e)).
Proof.
  intros Hans Hdec Hback.
  pose proof (call_answered self (Login username password hashed) w content Hans) as Hrun.
  cbn [call] in Hrun. rewrite Hrun, Hdec.
  unfold post, login_post, rbind. rewrite Hback.
  split.
  - intros e He. now rewrite He.
  - intros s Hs Htrue. rewrite Hs, Htrue. repeat split.
    + intros e He. now rewrite He.
    + intros user e Hu He. now rewrite Hu, He.
    + intros user user_id e Hu Hid He. now rewrite Hu, Hid, He.
Qed.

(** X6. When the transport fails, every operation raises the transport's
    error: nothing is decoded and nothing is returned. *)
Theorem call_propagates_transport_failure self c (w : World) req :
  exchanged (call self c w).1 = exchanged w ++ [(req, None)] ->
  (call self c w).2 = Raise RequestException.
Proof.
  run_ops c; intros Hreq.
  all: try (exfalso; exact (snoc_neq _ _ Hreq)).
  all: apply snoc_eq_inv in Hreq; try discriminate Hreq.
  all: reflexivity.
Qed.

(** X7. No operation retries: each performs exactly one HTTP exchange,
    except [login] on a password that cannot be hashed, which performs
    none and raises UnicodeEncodeError. *)
Theorem call_exchanges_once self c (w : World) :
  (exists req answer, exchanged (call self c w).1 = exchanged w ++ [(req, answer)])
  \/ (call self c w = (w, Raise UnicodeEncodeError)
      /\ exists username password,
           c = Login username password false
           /\ hash_password password = Raise UnicodeEncodeError).
Proof.
  run_ops c.
  all: try (left; eexists _, _; reflexivity).
  right.
  match goal with H : hash_password _ = Raise ?e |- _ =>
    pose proof (hash_password_error _ e H) as ->
  end.
  split; [reflexivity|]. eauto.
Qed.

(** X8. Every request goes to a page under [server_url], with the verb
    and the redirect policy the operation is written with: POST for login,
    the mix totals, status and detail, the dashboard and the storage
    overview, GET otherwise; redirects refused by the two plant lists only. *)
Theorem call_request_target self c (w : World) req answer :
  exchanged (call self c w).1 = exchanged w ++ [(req, answer)] ->
  (exists page, url req = server_url self ++ page)
  /\ method req = (if uses_post c then POST else GET)
  /\ allow_redirects req = negb (forbids_redirects c).
Proof.
  run_ops c; intros Hreq.
  all: try (exfalso; exact (snoc_neq _ _ Hreq)).
  all: apply snoc_eq_inv in Hreq; injection Hreq as <- _.
  all: cbn [url method allow_redirects uses_post forbids_redirects negb].
  all: unfold get_url; repeat split; eauto.
Qed.

(** X9. [login] sends the credentials in the body of its request and
    nothing in the query string; every other operation sends its
    parameters in the query string and no body. *)
Theorem call_request_placement self c (w : World) req answer :
  exchanged (call self c w).1 = exchanged w ++ [(req, answer)] ->
  if is_login c
  then params req = [] /\ is_Some (assoc (py "password") (data req))
  else data req = [].
Proof.
  run_ops c; intros Hreq.
  all: try (exfalso; exact (snoc_neq _ _ Hreq)).
  all: apply snoc_eq_inv in Hreq; injection Hreq as <- _.
  all: cbn [is_login params data]; try reflexivity.
  all: split; [reflexivity | vm_compute; eauto].
Qed.

(** X10. No operation touches the clock, and none issues a warning but
    [inverter_list], which issues exactly one. *)
Theorem call_warnings_and_clock self c (w : World) :
  clock (call self c w).1 = clock w
  /\ warned (call self c w).1 =
     warned w ++ (if is_inverter_list c
                  then [(DeprecationWarning, deprecation_message)]
                  else []).
Proof.
  run_ops c.
  all: cbn [is_inverter_list]; rewrite ?app_nil_r; split; reflexivity.
Qed.

(** X11. [plant_detail], [mix_detail] and [dashboard_data] send the
    integer code of their timespan as [type], and as [date] the string of
    that timespan for the supplied date, or for the clock's date when none
    is supplied. *)
Theorem windowed_request_parameters self c ts date (w : World) req answer :
  windowed c = Some (ts, date) ->
  exchanged (call self c w).1 = exchanged w ++ [(req, answer)] ->
  assoc (py "type") (params req) = Some (PInt (Timespan.value ts))
  /\ assoc (py "date") (params req)
     = Some (PStr (date_string (Some ts) (date_or_now date w))).
Proof.
  intros Hwin. destruct c; try discriminate Hwin; cbn [windowed] in Hwin.
  all: injection Hwin as -> ->.
  all: cbn [call]; unfold_ops; repeat step_op; intros Hreq.
  all: apply snoc_eq_inv in Hreq; injection Hreq as <- _.
  all: cbn [params date_or_now date_string]; split; reflexivity.
Qed.

(** X12. [inverter_data] and [tlx_data] always send [type] 1 and a day
    string YYYY-MM-DD, of the supplied date or of the clock's date,
    whatever the timespan they format with. *)
Theorem daily_request_parameters self id date (w : World) c req answer :
  c = InverterData id date \/ c = TlxData id date ->
  exchanged (call self c w).1 = exchanged w ++ [(req, answer)] ->
  assoc (py "type") (params req) = Some (PInt 1)
  /\ assoc (py "date") (params req)
     = Some (PStr (format_YYYY_MM_DD (date_or_now date w)))
  /\ assoc (py "id") (params req) = Some (PStr id).
Proof.
  intros [-> | ->].
  all: cbn [call]; unfold_ops; repeat step_op; intros Hreq.
  all: apply snoc_eq_inv in Hreq; injection Hreq as <- _.
  all: cbn [params date_or_now]; repeat split; reflexivity.
Qed.

(** X13. [mix_info] sends [plantId] only for a non-empty plant
    identifier: none and the empty string give the same request. *)
Theorem mix_info_optional_plant self mix_id plant_id (w : World) :
  (exists answer,
     exchanged (mix_info self mix_id plant_id w).1 =
     exchanged w ++
       [({| method := GET;
            url := get_url self (py "newMixApi.do");
            params := [(py "op", PStr (py "getMixInfo")); (py "mixId", PStr mix_id)]
                      ++ match plant_id with
                         | Some (c :: p) => [(py "plantId", PStr (c :: p))]
                         | _ => []
                         end;
            data := [];
            allow_redirects := true |}, answer)])
  /\ mix_info self mix_id (Some []) w = mix_info self mix_id None w.
Proof.
  split; [|reflexivity].
  destruct plant_id as [[|c p]|]; unfold_ops; cbn [length Nat.eqb negb];
    repeat step_op; eexists; reflexivity.
Qed.

(** X14. A date string for a calendar date with a year of four digits is
    made of decimal digits and dashes: 7 characters with a dash at index 4
    for month, 10 characters with dashes at indices 4 and 7 otherwise. *)
Theorem get_date_string_shape ts d (w : World) :
  1000 <= year d <= 9999 -> 1 <= month d <= 12 -> 1 <= day d <= 31 ->
  exists s,
    get_date_string ts (Some d) w = (w, Ok s)
    /\ Forall (fun c => is_decimal_digit c = true \/ c = 45) s
    /\ s !! 4%nat = Some 45
    /\ match ts with
       | Some Timespan.month => length s = 7%nat
       | _ => length s = 10%nat /\ s !! 7%nat = Some 45
       end.
Proof.
  intros Hy Hm Hd. exists (date_string ts d). split.
  { rewrite get_date_string_run. destruct ts as [[| |]|]; reflexivity. }
  destruct (format_widths d Hy ltac:(lia) ltac:(lia)) as (L7 & L10 & S4 & S4' & S7).
  pose proof (decimal_four_digits (year d) Hy) as Y.
  rewrite <- (strftime_Y_four_digits (year d) Hy) in Y.
  pose proof (zfill_two_digits (month d) ltac:(lia)) as Mo.
  pose proof (zfill_two_digits (day d) ltac:(lia)) as D.
  unfold digits_ok in *.
  apply andb_true_iff in Y as [_ Y], Mo as [_ Mo], D as [_ D].
  rewrite forallb_forall in Y, Mo, D.
  assert (Hdigits : forall l, (forall x, In x l -> is_decimal_digit x = true) ->
                      Forall (fun c => is_decimal_digit c = true \/ c = 45) l).
  { intros l Hl. apply Forall_forall. intros x Hx. left. apply Hl, list_elem_of_In, Hx. }
  assert (Hdash : Forall (fun c => is_decimal_digit c = true \/ c = 45) (py "-")).
  { change (py "-") with [45]. constructor; [now right | constructor]. }
  apply Hdigits in Y, Mo, D. clear Hdigits.
  destruct ts as [[| |]|]; cbn [date_string]; unfold format_YYYY_MM, format_YYYY_MM_DD in *.
  all: set (yy := strftime_Y (year d)) in *.
  all: set (mm := zfill 2 (decimal (month d))) in *.
  all: set (dd := zfill 2 (decimal (day d))) in *.
  all: clearbody yy mm dd.
  all: repeat split; try assumption.
  all: repeat (apply Forall_app; split); assumption.
Qed.

(** The start of the script is [login] followed by a lookup. *)
Lemma script_user_id_run username password (w : World) :
  script_user_id username password w =
  ((login default_api username password false w).1,
   rbind (login default_api username password false w).2
     (fun login_response => getitem login_response (py "userId"))).
Proof.
  unfold script_user_id, bind, lift. cbn [init fst].
  destruct (login default_api username password false w) as [w' [r|e]]; reflexivity.
Qed.

(** X15. The script reads [userId] from whatever [login] returns: after a
    rejected login (a falsy [success] and no [userId] in the envelope) it
    stops with KeyError 'userId'; after an accepted one it goes on with
    user.parentUserId. *)
Theorem script_user_id_after_login username password (w : World) content body d success :
  answered w (script_user_id username password w).1 content ->
  decode_json content = Ok body ->
  getitem body (py "back") = Ok (JDict d) ->
  d !! py "success" = Some success ->
  (truthy success = false -> d !! py "userId" = None ->
     (script_user_id username password w).2 = Raise (KeyError (py "userId")))
  /\ (forall user user_id user_level,
        truthy success = true ->
        d !! py "user" = Some user ->
        getitem user (py "parentUserId") = Ok user_id ->
        getitem user (py "rightlevel") = Ok user_level ->
        (script_user_id username password w).2 = Ok user_id).
Proof.
  rewrite script_user_id_run. cbn [fst snd]. intros Hans Hdec Hback Hsucc.
  pose proof (call_answered default_api (Login username password false) w content Hans) as Hrun.
  cbn [call] in Hrun. rewrite Hrun, Hdec.
  unfold post, login_post, rbind. rewrite Hback. cbn [getitem]. rewrite Hsucc.
  split.
  - intros Hfalsy Hnone. rewrite Hfalsy. cbn [getitem]. now rewrite Hnone.
  - intros user user_id user_level Htrue Huser Hid Hlevel.
    rewrite Htrue, Huser, Hid, Hlevel. cbn [getitem].
    rewrite lookup_insert_ne by discriminate. now rewrite lookup_insert_eq.
Qed.

End Operations.

(* ===================================================================== *)
(** * The constructor *)
(* ===================================================================== *)

Lemma decimal_one_digit n : n <= 9 -> decimal n = [48 + n].
Proof.
  intros Hn.
  pose proof (checked_below (fun k => bool_decide (decimal k = [48 + k])) 10 n) as H.
  cbv beta in H. eapply bool_decide_eq_true_1, H; [vm_compute; reflexivity | lia].
Qed.

(** X16. The constructor keeps the class's server URL, takes as agent
    identifier the supplied one unless it is absent or empty, appends to
    it " - " and exactly five decimal digits when a random suffix is
    asked for, and sets the session's User-Agent header to the result. *)
Theorem init_agent_identifier (add_random_user_id : bool) identifier randint :
  (forall k, randint k <= 9) ->
  let base := match identifier with
              | Some (c :: a) => c :: a
              | _ => agent_identifier default_api
              end in
  let self := (init add_random_user_id identifier randint).1 in
  server_url self = server_url default_api
  /\ (init add_random_user_id identifier randint).2
     = [(py "User-Agent", agent_identifier self)]
  /\ (add_random_user_id = false -> agent_identifier self = base)
  /\ (add_random_user_id = true ->
      exists digits,
        agent_identifier self = base ++ py " - " ++ digits
        /\ length digits = 5%nat
        /\ Forall (fun c => is_decimal_digit c = true) digits).
Proof.
  intros Hrand base self.
  assert (Hsuffix : random_number randint
                    = [48 + randint 0%nat; 48 + randint 1%nat; 48 + randint 2%nat;
                       48 + randint 3%nat; 48 + randint 4%nat]).
  { unfold random_number. cbn [seq flat_map].
    rewrite !decimal_one_digit by apply Hrand. reflexivity. }
  assert (Hdigit : forall k, is_decimal_digit (48 + randint k) = true).
  { intros k. pose proof (Hrand k). unfold is_decimal_digit.
    apply andb_true_iff. split; apply N.leb_le; lia. }
  subst base self.
  destruct add_random_user_id, identifier as [[|c a]|]; cbn [init fst snd length Nat.eqb negb
    server_url agent_identifier].
  all: repeat split; try reflexivity; try discriminate.
  all: intros _; eexists; split; [reflexivity|]; rewrite Hsuffix.
  all: split; [reflexivity | repeat constructor; apply Hdigit].
Qed.

(* ===================================================================== *)
(** * The further theorems on concrete inputs *)
(* ===================================================================== *)

Lemma hash_password_plain_md5_witness :
  hash_password (py "password") = Ok (MD5.hexdigest (map Utf8.byte_of_N (py "password")))
  <-> Forall (fun b => 16 <= b) (MD5.digest (map Utf8.byte_of_N (py "password"))).
Proof.
  apply (hash_password_plain_md5 (py "password")). vm_compute. reflexivity.
Defined.

Lemma login_plain_is_login_hashed_witness :
  let w := Fixture.world [Fixture.login_ok_body] in
  login default_api (py "user") (py "password") false w
  = login default_api (py "user") (py "5f4dcc3b5aa765d61d8327deb882cf99") true w.
Proof.
  intros w. apply (login_plain_is_login_hashed default_api (py "user") (py "password")).
  vm_compute. reflexivity.
Defined.

Lemma login_raises_on_incomplete_envelope_witness :
  (login default_api (py "user") (py "password") false (Fixture.world [no_user_body])).2
  = Raise (KeyError (py "user")).
Proof.
  pose proof (login_raises_on_incomplete_envelope default_api (py "user") (py "password")
                false (Fixture.world [no_user_body]) no_user_body
                (JDict {[ py "back" := JDict {[ py "success" := JBool true;
                                                py "msg" := JStr [] ]} ]})
                (JDict {[ py "success" := JBool true; py "msg" := JStr [] ]})) as H.
  destruct H as [_ H].
  - eexists. vm_compute. reflexivity.
  - vm_compute. reflexivity.
  - vm_compute. reflexivity.
  - destruct (H (JBool true)) as [Huser _].
    + vm_compute. reflexivity.
    + reflexivity.
    + apply Huser. vm_compute. reflexivity.
Defined.

Lemma call_propagates_transport_failure_witness :
  (call default_api (PlantInfo (py "42")) (Fixture.world [])).2 = Raise RequestException.
Proof.
  eapply (call_propagates_transport_failure default_api (PlantInfo (py "42"))
            (Fixture.world [])).
  vm_compute. reflexivity.
Defined.

Lemma call_request_target_witness :
  exists req,
    (exists page, url req = server_url default_api ++ page)
    /\ method req = GET
    /\ allow_redirects req = false.
Proof.
  eexists.
  eapply (call_request_target default_api (PlantList (py "7"))
            (Fixture.world [Fixture.mix_body])).
  vm_compute. reflexivity.
Defined.

Lemma call_request_placement_witness :
  exists req, params req = [] /\ is_Some (assoc (py "password") (data req)).
Proof.
  eexists.
  eapply (call_request_placement default_api (Login (py "user") (py "password") false)
            (Fixture.world [Fixture.login_ok_body])).
  vm_compute. reflexivity.
Defined.

Lemma windowed_request_parameters_witness :
  exists req,
    assoc (py "type") (params req) = Some (PInt 2)
    /\ assoc (py "date") (params req) = Some (PStr (py "2024-03")).
Proof.
  eexists.
  eapply (windowed_request_parameters default_api
            (PlantDetail (py "42") Timespan.month None) Timespan.month None
            (Fixture.world [Fixture.mix_body])).
  - reflexivity.
  - vm_compute. reflexivity.
Defined.

Lemma daily_request_parameters_witness :
  exists req,
    assoc (py "type") (params req) = Some (PInt 1)
    /\ assoc (py "date") (params req) = Some (PStr (py "2024-03-15"))
    /\ assoc (py "id") (params req) = Some (PStr (py "INV1")).
Proof.
  eexists.
  eapply (daily_request_parameters default_api (py "INV1") None
            (Fixture.world [Fixture.mix_body]) (InverterData (py "INV1") None)).
  - left. reflexivity.
  - vm_compute. reflexivity.
Defined.

Lemma get_date_string_shape_witness :
  exists s,
    get_date_string (Some Timespan.month)
      (Some {| year := 2024; month := 3; day := 15; time_of_day := None |})
      (Fixture.world [])
    = (Fixture.world [], Ok s)
    /\ Forall (fun c => is_decimal_digit c = true \/ c = 45) s
    /\ s !! 4%nat = Some 45
    /\ length s = 7%nat.
Proof.
  apply (get_date_string_shape (Some Timespan.month)
           {| year := 2024; month := 3; day := 15; time_of_day := None |}
           (Fixture.world [])); cbn [year month day]; lia.
Defined.

Lemma script_user_id_after_login_witness :
  (script_user_id (py "user") (py "password")
     (Fixture.world [Fixture.login_rejected_body])).2
  = Raise (KeyError (py "userId")).
Proof.
  pose proof (script_user_id_after_login (py "user") (py "password")
                (Fixture.world [Fixture.login_rejected_body]) Fixture.login_rejected_body
                (JDict {[ py "back" :=
                            JDict {[ py "success" := JBool false;
                                     py "msg" := JStr (py "501") ]} ]})
                {[ py "success" := JBool false; py "msg" := JStr (py "501") ]}
                (JBool false)) as H.
  destruct H as [H _].
  - eexists. vm_compute. reflexivity.
  - vm_compute. reflexivity.
  - vm_compute. reflexivity.
  - vm_compute. reflexivity.
  - apply H; [reflexivity | vm_compute; reflexivity].
Defined.

Lemma init_agent_identifier_witness :
  (exists digits,
     agent_identifier (init true (Some (py "probe/1.0")) (fun k => N.of_nat k mod 10)).1
     = py "probe/1.0" ++ py " - " ++ digits
     /\ length digits = 5%nat
     /\ Forall (fun c => is_decimal_digit c = true) digits)
  /\ agent_identifier (init false (Some []) (fun k => N.of_nat k mod 10)).1
     = agent_identifier default_api.
Proof.
  assert (Hrand : forall k, N.of_nat k mod 10 <= 9).
  { intros k. pose proof (N.mod_upper_bound (N.of_nat k) 10 ltac:(discriminate)). lia. }
  split.
  - destruct (init_agent_identifier true (Some (py "probe/1.0"))
                (fun k => N.of_nat k mod 10) Hrand) as (_ & _ & _ & H).
    exact (H eq_refl).
  - destruct (init_agent_identifier false (Some []) (fun k => N.of_nat k mod 10) Hrand)
      as (_ & _ & H & _).
    exact (H eq_refl).
Defined.
